(** * ReactQuill: lifecycle bridging, value synchronisation, change events

    A shallow embedding of [src/component.tsx].  The component is a
    record of its fields ([props], [state], [editor], ...), its methods
    are computations in a small state / event-log / exception monad, and
    the Quill instances it owns live in a heap addressed by handles, so
    that a handle captured in a local constant keeps denoting the same
    instance after [this.editor] has been deleted. *)

From stdpp Require Import base option list strings gmap.
From Stdlib Require Import ZArith Lia.

Set Warnings "-register-all".

Open Scope string_scope.
Open Scope list_scope.
Open Scope Z_scope.

(** ** JavaScript values *)

(** Identity of a heap-allocated JavaScript object. *)
Definition ref := nat.
Bind Scope nat_scope with ref.

(** The values that flow through the component.  Arrays, objects,
    functions and host objects (DOM elements) carry their identity;
    numbers are the integers (exact below 2^53). *)
Inductive JsVal : Type :=
| VUndef
| VNull
| VBool (b : bool)
| VNum (n : Z)
| VStr (s : string)
| VArr (r : ref) (items : list JsVal)
| VObj (r : ref) (fields : list (string * JsVal))
| VFun (r : ref)
| VHost (r : ref).

Section ListHelpers.
Context {A B : Type}.
Variable f : A -> B -> bool.

(** Pointwise comparison of two sequences of equal length. *)
Fixpoint all2 (xs : list A) (ys : list B) : bool :=
  match xs, ys with
  | [], [] => true
  | x :: xs', y :: ys' => f x y && all2 xs' ys'
  | _, _ => false
  end.
End ListHelpers.

Section FieldHelpers.
Context {A : Type}.
Variable p : A -> bool.
Variable k : string.

(** [p] holds of the value stored under own key [k]. *)
Fixpoint field_sat (fs : list (string * A)) : bool :=
  match fs with
  | [] => false
  | kv :: fs' => if String.eqb (fst kv) k then p (snd kv) else field_sat fs'
  end.
End FieldHelpers.

Section EveryField.
Context {A : Type}.
Variable p : string -> A -> bool.

Fixpoint every_field (fs : list (string * A)) : bool :=
  match fs with
  | [] => true
  | kv :: fs' => p (fst kv) (snd kv) && every_field fs'
  end.
End EveryField.

(** Own-property lookup in a field list. *)
Fixpoint assoc (k : string) (fs : list (string * JsVal)) : option JsVal :=
  match fs with
  | [] => None
  | kv :: fs' => if String.eqb (fst kv) k then Some (snd kv) else assoc k fs'
  end.

(** JavaScript truthiness. *)
Definition truthy (v : JsVal) : bool :=
  match v with
  | VUndef | VNull => false
  | VBool b => b
  | VNum n => negb (n =? 0)
  | VStr s => negb (String.eqb s "")
  | VArr _ _ | VObj _ _ | VFun _ | VHost _ => true
  end.

(** [v ?? d] *)
Definition nullish (v : JsVal) : bool :=
  match v with
  | VUndef | VNull => true
  | _ => false
  end.

Definition coalesce (v d : JsVal) : JsVal := if nullish v then d else v.

(** [v.k] on a value that is not nullish: primitives, arrays and
    functions have no such own property. *)
Definition getProp (v : JsVal) (k : string) : JsVal :=
  match v with
  | VObj _ fs => default VUndef (assoc k fs)
  | _ => VUndef
  end.

(** [v?.k] *)
Definition optProp (v : JsVal) (k : string) : JsVal :=
  if nullish v then VUndef else getProp v k.

(** [v?.[0]] *)
Definition optFirst (v : JsVal) : JsVal :=
  match v with
  | VArr _ items => default VUndef (head items)
  | VObj _ fs => default VUndef (assoc "0" fs)
  | VStr s => match s with
              | EmptyString => VUndef
              | String c _ => VStr (String c EmptyString)
              end
  | _ => VUndef
  end.

(** [a === b]: primitives by value, everything else by identity. *)
Definition strictEquals (a b : JsVal) : bool :=
  match a, b with
  | VUndef, VUndef => true
  | VNull, VNull => true
  | VBool x, VBool y => Bool.eqb x y
  | VNum x, VNum y => x =? y
  | VStr x, VStr y => String.eqb x y
  | VArr r _, VArr r' _ => Nat.eqb r r'
  | VObj r _, VObj r' _ => Nat.eqb r r'
  | VFun r, VFun r' => Nat.eqb r r'
  | VHost r, VHost r' => Nat.eqb r r'
  | _, _ => false
  end.

(** lodash [isEqual]: deep comparison.  Arrays are compared item by
    item, objects have the same own keys with deeply equal values under
    each, functions and host objects are equal only to themselves;
    identities of arrays and objects are not looked at. *)
Fixpoint isEqual (a b : JsVal) {struct a} : bool :=
  match a, b with
  | VUndef, VUndef => true
  | VNull, VNull => true
  | VBool x, VBool y => Bool.eqb x y
  | VNum x, VNum y => x =? y
  | VStr x, VStr y => String.eqb x y
  | VArr _ xs, VArr _ ys => all2 (fun x y => isEqual x y) xs ys
  | VObj _ fa, VObj _ fb =>
      every_field (fun k v => field_sat (fun v' => isEqual v v') k fb) fa
      && every_field (fun k v' => field_sat (fun v => isEqual v v') k fa) fb
  | VFun r, VFun r' => Nat.eqb r r'
  | VHost r, VHost r' => Nat.eqb r r'
  | _, _ => false
  end.

(** [isDelta]: [value && value.ops], read as a condition. *)
Definition isDelta (v : JsVal) : bool :=
  truthy v && truthy (getProp v "ops").

(** [isEqualValue] *)
Definition isEqualValue (v nextValue : JsVal) : bool :=
  if isDelta v && isDelta nextValue
  then isEqual (getProp v "ops") (getProp nextValue "ops")
  else isEqual v nextValue.

(** ** The component's data *)

(** The props bag: [p !! k] is [None] when [k in p] is false. *)
Abbreviation Props := (gmap string JsVal).

Definition hasProp (p : Props) (k : string) : bool :=
  match p !! k with
  | Some _ => true
  | None => false
  end.

Definition propOf (p : Props) (k : string) : JsVal := default VUndef (p !! k).

Record ReactQuillState := mkState {
  generation : Z;
  value : JsVal;
  selection : JsVal
}.

(** The argument of a [setState] call. *)
Inductive StatePatch :=
| PatchGeneration (g : Z)
| PatchValue (v : JsVal)
| PatchSelection (s : JsVal).

Definition applyPatch (s : ReactQuillState) (p : StatePatch) : ReactQuillState :=
  match p with
  | PatchGeneration g => mkState g (value s) (selection s)
  | PatchValue v => mkState (generation s) v (selection s)
  | PatchSelection r => mkState (generation s) (value s) r
  end.

Record DomNode := mkNode { nodeType : Z; nodeKey : Z }.

(** What the ref callback stored; [domNode] is what
    [ReactDOM.findDOMNode] resolves it to. *)
Record ReactInstance := mkInstance { domNode : option DomNode }.

Record QuillOptions := mkOptions {
  o_bounds : JsVal;
  o_formats : JsVal;
  o_modules : JsVal;
  o_placeholder : JsVal;
  o_readOnly : JsVal;
  o_scrollingContainer : JsVal;
  o_tabIndex : JsVal;
  o_theme : JsVal
}.

(** A Quill instance, as far as the component talks to it. *)
Record Quill := mkQuill {
  q_container : DomNode;
  q_options : QuillOptions;
  q_contents : JsVal;
  q_selection : JsVal;
  q_focused : bool;
  q_enabled : bool;
  q_hooked : bool
}.

Definition withContents (d : JsVal) (q : Quill) : Quill :=
  mkQuill (q_container q) (q_options q) d (q_selection q)
          (q_focused q) (q_enabled q) (q_hooked q).

Definition withSelection (r : JsVal) (q : Quill) : Quill :=
  mkQuill (q_container q) (q_options q) (q_contents q) r
          (q_focused q) (q_enabled q) (q_hooked q).

Definition withFocus (b : bool) (q : Quill) : Quill :=
  mkQuill (q_container q) (q_options q) (q_contents q) (q_selection q)
          b (q_enabled q) (q_hooked q).

Definition withEnabled (b : bool) (q : Quill) : Quill :=
  mkQuill (q_container q) (q_options q) (q_contents q) (q_selection q)
          (q_focused q) b (q_hooked q).

Definition withHooked (b : bool) (q : Quill) : Quill :=
  mkQuill (q_container q) (q_options q) (q_contents q) (q_selection q)
          (q_focused q) (q_enabled q) b.

Definition handle := nat.
Bind Scope nat_scope with handle.

Record Snapshot := mkSnapshot { s_delta : JsVal; s_selection : JsVal }.

Record ReactQuill := mkReactQuill {
  props : Props;
  state : ReactQuillState;
  editor : option handle;
  editingArea : option ReactInstance;
  lastDeltaChangeSet : option JsVal;
  regenerationSnapshot : option Snapshot
}.

(** The component, the [setState] requests React has not applied yet,
    and the heap of Quill instances. *)
Record World := mkWorld {
  this : ReactQuill;
  pendingState : list StatePatch;
  quills : list Quill
}.

(** The read-only view handed to the change handlers: what its getters
    return. *)
Record UnprivilegedEditor := mkView {
  ue_ref : ref;
  ue_getContents : JsVal;
  ue_getHTML : JsVal
}.

Inductive Error :=
| ErrToolbarProp
| ErrCustomToolbar
| ErrCustomFormats
| ErrStylesProp
| ErrPollIntervalProp
| ErrMultipleChildren
| ErrChildrenOnly
| ErrTextarea
| ErrDeltaAsValue
| ErrAlreadyInstantiated
| ErrDestroyBeforeInstantiation
| ErrNonInstantiated
| ErrMissingEditingArea
| ErrNoElement
| ErrTextNode
| ErrTypeError.

(** Calls that leave the component. *)
Inductive Event :=
| QuillCreate (h : handle) (container : DomNode) (config : QuillOptions)
| QuillUnhook (h : handle)
| QuillSetContents (h : handle) (d : JsVal)
| QuillSetSelection (h : handle) (r : JsVal)
| QuillFocus (h : handle)
| SetEditorContents (h : handle) (v : JsVal)
| SetEditorReadOnly (h : handle) (v : JsVal)
| SetEditorSelection (h : handle) (r : JsVal)
| SetState (p : StatePatch)
| Callback (name : string) (f : ref) (args : list JsVal).

(** ** Computations: state, emitted calls, exceptions *)

Inductive Result (A : Type) :=
| Returned (a : A)
| Thrown (e : Error).
Arguments Returned {A} a.
Arguments Thrown {A} e.

Record Outcome (A : Type) := mkOutcome {
  after : World;
  emitted : list Event;
  result : Result A
}.
Arguments mkOutcome {A} _ _ _.
Arguments after {A} _.
Arguments emitted {A} _.
Arguments result {A} _.

Definition M (A : Type) := World -> Outcome A.

Definition ret {A} (a : A) : M A := fun w => mkOutcome w [] (Returned a).

Definition throw {A} (e : Error) : M A := fun w => mkOutcome w [] (Thrown e).

(** A thrown exception keeps the writes made before it. *)
Definition bind {A B} (m : M A) (k : A -> M B) : M B := fun w =>
  let (w1, ev1, r1) := m w in
  match r1 with
  | Returned a =>
      let (w2, ev2, r2) := k a w1 in
      mkOutcome w2 (ev1 ++ ev2) r2
  | Thrown e => mkOutcome w1 ev1 (Thrown e)
  end.

Declare Scope js_scope.
Delimit Scope js_scope with js.
Notation "x <- m ;; k" := (bind m (fun x => k))
  (at level 100, m at next level, right associativity) : js_scope.
Notation "m ;;; k" := (bind m (fun _ => k))
  (at level 100, right associativity) : js_scope.
Open Scope js_scope.

Definition getThis : M ReactQuill := fun w => mkOutcome w [] (Returned (this w)).

Definition getQuills : M (list Quill) := fun w => mkOutcome w [] (Returned (quills w)).

Definition modifyThis (f : ReactQuill -> ReactQuill) : M unit := fun w =>
  mkOutcome (mkWorld (f (this w)) (pendingState w) (quills w)) [] (Returned tt).

Definition modifyQuills (f : list Quill -> list Quill) : M unit := fun w =>
  mkOutcome (mkWorld (this w) (pendingState w) (f (quills w))) [] (Returned tt).

Definition emit (e : Event) : M unit := fun w => mkOutcome w [e] (Returned tt).

Definition when (b : bool) (m : M unit) : M unit := if b then m else ret tt.

(** [this.setState(patch)]: React queues the request; [this.state] is
    not written before the handler or lifecycle method has returned.
    This is what React does for a call made inside a lifecycle method
    or a batch.  For a call made outside a batch React applies the
    request before [setState] returns; that is the update pass for the
    request, run right after the step that made it, so statements
    about a handler speak of the request, and of the state once the
    request is applied, not of [this.state] as the handler returns. *)
Definition setState (p : StatePatch) : M unit := fun w =>
  mkOutcome (mkWorld (this w) (pendingState w ++ [p]) (quills w))
            [SetState p] (Returned tt).

Definition set_editor (e : option handle) (c : ReactQuill) : ReactQuill :=
  mkReactQuill (props c) (state c) e (editingArea c)
               (lastDeltaChangeSet c) (regenerationSnapshot c).

Definition set_lastDeltaChangeSet (d : option JsVal) (c : ReactQuill) : ReactQuill :=
  mkReactQuill (props c) (state c) (editor c) (editingArea c)
               d (regenerationSnapshot c).

Definition set_regenerationSnapshot (s : option Snapshot) (c : ReactQuill) : ReactQuill :=
  mkReactQuill (props c) (state c) (editor c) (editingArea c)
               (lastDeltaChangeSet c) s.

Definition set_editingArea (a : option ReactInstance) (c : ReactQuill) : ReactQuill :=
  mkReactQuill (props c) (state c) (editor c) a
               (lastDeltaChangeSet c) (regenerationSnapshot c).

Definition set_props_state (p : Props) (s : ReactQuillState) (c : ReactQuill) : ReactQuill :=
  mkReactQuill p s (editor c) (editingArea c)
               (lastDeltaChangeSet c) (regenerationSnapshot c).

(** ** The Quill instance interface *)

Definition quillGetContents (h : handle) : M JsVal :=
  qs <- getQuills ;;
  ret (default VUndef (q_contents <$> qs !! h)).

Definition quillGetSelection (h : handle) : M JsVal :=
  qs <- getQuills ;;
  ret (default VNull (q_selection <$> qs !! h)).

Definition quillSetContents (h : handle) (d : JsVal) : M unit :=
  modifyQuills (alter (withContents d) h) ;;;
  emit (QuillSetContents h d).

Definition quillSetSelection (h : handle) (r : JsVal) : M unit :=
  modifyQuills (alter (withSelection r) h) ;;;
  emit (QuillSetSelection h r).

Definition quillFocus (h : handle) : M unit :=
  modifyQuills (alter (withFocus true) h) ;;;
  emit (QuillFocus h).

(** ** The mixin's helpers *)

(** The document of a Quill created on a fresh container. *)
Definition blankDelta : JsVal := VObj 0 [("ops", VArr 0 [])].

(** Modelled from the spec: [createEditor] of [./mixin], which is not
    among the sources; section 6 has it as [create(container, options)
    -> instance] followed by the subscription to the change events.
    The new instance gets the next free handle. *)
Definition createEditor (element : DomNode) (config : QuillOptions) : M handle :=
  qs <- getQuills ;;
  let h := length qs in
  modifyQuills (fun qs =>
    qs ++ [mkQuill element config blankDelta VNull false
                   (negb (truthy (o_readOnly config))) true]) ;;;
  emit (QuillCreate h element config) ;;;
  ret h.

(** Modelled from the spec: [unhookEditor] of [./mixin]; section 5:
    destruction unsubscribes from the instance. *)
Definition unhookEditor (h : handle) : M unit :=
  modifyQuills (alter (withHooked false) h) ;;;
  emit (QuillUnhook h).

(** Modelled from the spec: [setEditorContents] of [./mixin]; section
    4.2: replace the instance's full document state with the incoming
    value (structured) or the incoming markup (string).  This is the
    write alone, and the instance holds what was written, not the
    widget's normalised form of it.  The change notification a hooked
    instance raises for the write is a raw widget event (section 2): it
    reaches the component as a call of [onEditorChangeText], a step of
    its own here. *)
Definition setEditorContents (h : handle) (v : JsVal) : M unit :=
  modifyQuills (alter (withContents v) h) ;;;
  emit (SetEditorContents h v).

(** Modelled from the spec: [setEditorReadOnly] of [./mixin]; section
    1: [instance.enable(!readOnly)]. *)
Definition setEditorReadOnly (h : handle) (v : JsVal) : M unit :=
  modifyQuills (alter (withEnabled (negb (truthy v))) h) ;;;
  emit (SetEditorReadOnly h v).

(** Modelled from the spec: [setEditorSelection] of [./mixin]; section
    6: [setSelection(range|null)]. *)
Definition setEditorSelection (h : handle) (r : JsVal) : M unit :=
  modifyQuills (alter (withSelection r) h) ;;;
  emit (SetEditorSelection h r).

(** ** React helpers used by the component *)

(** [React.Children.count]: nothing for a missing child, one per node,
    arrays counted through. *)
Fixpoint countNodes (c : JsVal) : nat :=
  match c with
  | VArr _ items => foldr (fun x n => (countNodes x + n)%nat) 0%nat items
  | _ => 1%nat
  end.

Definition childrenCount (c : JsVal) : nat :=
  if nullish c then 0%nat else countNodes c.

(** [React.Children.only]: the child when it is one element. *)
Definition childrenOnly (c : JsVal) : Result JsVal :=
  match c with
  | VObj _ _ => Returned c
  | _ => Thrown ErrChildrenOnly
  end.

(** [props.onX?.(args)] *)
Definition optCall (name : string) (f : JsVal) (args : list JsVal) : M unit :=
  match f with
  | VUndef | VNull => ret tt
  | VFun r => emit (Callback name r args)
  | _ => throw ErrTypeError
  end.

(** A callback prop as its type allows it: a function, or missing. *)
Definition callable (f : JsVal) : bool :=
  match f with
  | VUndef | VNull | VFun _ => true
  | _ => false
  end.

(** The calls [props.onX?.(args)] makes for such a prop. *)
Definition callsOf (name : string) (f : JsVal) (args : list JsVal) : list Event :=
  match f with
  | VFun r => [Callback name r args]
  | _ => []
  end.

(** ** The component: [class ReactQuill] *)

Definition dirtyProps : list string :=
  ["modules"; "formats"; "bounds"; "theme"; "children"].

Definition cleanProps : list string :=
  ["id"; "className"; "style"; "readOnly"; "placeholder"; "tabIndex";
   "onChange"; "onChangeSelection"; "onFocus"; "onBlur";
   "onKeyPress"; "onKeyDown"; "onKeyUp"].

(** [isControlled] *)
Definition isControlled (c : ReactQuill) : bool := hasProp (props c) "value".

(** The field initialisers followed by [constructor(props)]. *)
Definition constructor (p : Props) : ReactQuill :=
  let c := mkReactQuill p (mkState 0 (VStr "") VNull) None None None None in
  let v := if isControlled c then propOf p "value" else propOf p "defaultValue" in
  mkReactQuill p (mkState 0 (coalesce v (VStr "")) VNull) None None None None.

Definition isString (v : JsVal) : bool :=
  match v with
  | VStr _ => true
  | _ => false
  end.

Definition isArray (v : JsVal) : bool :=
  match v with
  | VArr _ _ => true
  | _ => false
  end.

(** lodash [some(formats, x => typeof x !== 'string')]; it is only
    reached for an array. *)
Definition someNotString (v : JsVal) : bool :=
  match v with
  | VArr _ items => existsb (fun x => negb (isString x)) items
  | _ => false
  end.

Definition check (failed : bool) (e : Error) : M unit :=
  if failed then throw e else ret tt.

(** [validateProps] *)
Definition validateProps (p : Props) : M unit :=
  check (hasProp p "toolbar") ErrToolbarProp ;;;
  check (truthy (optProp (optFirst (optProp (propOf p "modules") "toolbar")) "type"))
        ErrCustomToolbar ;;;
  check (truthy (propOf p "formats")
         && (negb (isArray (propOf p "formats")) || someNotString (propOf p "formats")))
        ErrCustomFormats ;;;
  check (hasProp p "styles") ErrStylesProp ;;;
  check (hasProp p "pollInterval") ErrPollIntervalProp ;;;
  check (1 <? childrenCount (propOf p "children"))%nat ErrMultipleChildren ;;;
  (if (0 <? childrenCount (propOf p "children"))%nat
   then match childrenOnly (propOf p "children") with
        | Returned child =>
            check (strictEquals (optProp child "type") (VStr "textarea")) ErrTextarea
        | Thrown e => throw e
        end
   else ret tt) ;;;
  c <- getThis ;;
  check (match lastDeltaChangeSet c with
         | Some d => truthy d && strictEquals (propOf p "value") d
         | None => false
         end) ErrDeltaAsValue.

(** Some listed prop differs, by [isEqual], between [nextProps] and
    [this.props]. *)
Definition somePropDiffers (keys : list string) (nextProps thisProps : Props) : bool :=
  existsb (fun prop => negb (isEqual (propOf nextProps prop) (propOf thisProps prop))) keys.

(** [shouldComponentUpdate] *)
Definition shouldComponentUpdate (nextProps : Props) (nextState : ReactQuillState) : M bool :=
  validateProps nextProps ;;;
  c <- getThis ;;
  if negb (generation (state c) =? generation nextState) then ret true
  else ret (somePropDiffers (cleanProps ++ dirtyProps) nextProps (props c)).

(** [shouldComponentRegenerate] *)
Definition shouldComponentRegenerate (nextProps : Props) : M bool :=
  c <- getThis ;;
  ret (somePropDiffers dirtyProps nextProps (props c)).

(** [getEditingArea] *)
Definition getEditingArea : M DomNode :=
  c <- getThis ;;
  match editingArea c with
  | None => throw ErrMissingEditingArea
  | Some area =>
      match domNode area with
      | None => throw ErrNoElement
      | Some element =>
          if nodeType element =? 3 then throw ErrTextNode else ret element
      end
  end.

(** [getEditorConfig] *)
Definition getEditorConfig : M QuillOptions :=
  c <- getThis ;;
  ret (mkOptions (propOf (props c) "bounds") (propOf (props c) "formats")
                 (propOf (props c) "modules") (propOf (props c) "placeholder")
                 (propOf (props c) "readOnly")
                 (propOf (props c) "scrollingContainer")
                 (propOf (props c) "tabIndex") (propOf (props c) "theme")).

(** [instantiateEditor] *)
Definition instantiateEditor : M unit :=
  c <- getThis ;;
  match editor c with
  | Some _ => throw ErrAlreadyInstantiated
  | None =>
      element <- getEditingArea ;;
      config <- getEditorConfig ;;
      h <- createEditor element config ;;
      modifyThis (set_editor (Some h))
  end.

(** [destroyEditor] *)
Definition destroyEditor : M unit :=
  c <- getThis ;;
  match editor c with
  | None => throw ErrDestroyBeforeInstantiation
  | Some h =>
      unhookEditor h ;;;
      modifyThis (set_editor None)
  end.

(** [getEditor] *)
Definition getEditor : M handle :=
  c <- getThis ;;
  match editor c with
  | None => throw ErrNonInstantiated
  | Some h => ret h
  end.

(** [getEditorContents] *)
Definition getEditorContents : M JsVal :=
  c <- getThis ;; ret (value (state c)).

(** [getEditorSelection] *)
Definition getEditorSelection : M JsVal :=
  c <- getThis ;; ret (selection (state c)).

(** [componentDidMount]; [this.editor!] is set once
    [instantiateEditor] has returned. *)
Definition componentDidMount : M unit :=
  instantiateEditor ;;;
  c <- getThis ;;
  match editor c with
  | Some h => setEditorContents h (value (state c))
  | None => throw ErrTypeError
  end.

(** [componentWillUnmount] *)
Definition componentWillUnmount : M unit := destroyEditor.

(** [componentDidUpdate].  The constant [editor] is bound once, before
    the regeneration branch, and every later call goes through it. *)
Definition componentDidUpdate (prevProps : Props) (prevState : ReactQuillState) : M unit :=
  c <- getThis ;;
  match editor c with
  | None => ret tt
  | Some editor =>
      regenerate <- shouldComponentRegenerate prevProps ;;
      when regenerate (
        delta <- quillGetContents editor ;;
        selection <- quillGetSelection editor ;;
        modifyThis (set_regenerationSnapshot (Some (mkSnapshot delta selection))) ;;;
        c <- getThis ;;
        setState (PatchGeneration (generation (state c) + 1)) ;;;
        destroyEditor) ;;;
      c <- getThis ;;
      when (negb (generation (state c) =? generation prevState)) (
        match regenerationSnapshot c with
        | None => throw ErrTypeError
        | Some snapshot =>
            modifyThis (set_regenerationSnapshot None) ;;;
            instantiateEditor ;;;
            quillSetContents editor (s_delta snapshot) ;;;
            when (truthy (s_selection snapshot))
                 (quillSetSelection editor (s_selection snapshot)) ;;;
            quillFocus editor
        end) ;;;
      c <- getThis ;;
      when (hasProp (props c) "value") (
        let prevContents := value prevState in
        let nextContents := coalesce (propOf (props c) "value") (VStr "") in
        when (negb (isEqualValue nextContents prevContents))
             (setEditorContents editor nextContents)) ;;;
      when (hasProp (props c) "readOnly") (
        when (negb (strictEquals (propOf (props c) "readOnly")
                                 (propOf prevProps "readOnly")))
             (setEditorReadOnly editor (propOf (props c) "readOnly")))
  end.

(** [onEditorChangeText]; [html] is its first parameter, [value]. *)
Definition onEditorChangeText (html delta source : JsVal) (view : UnprivilegedEditor) : M unit :=
  currentContents <- getEditorContents ;;
  let nextContents :=
    if isDelta currentContents then ue_getContents view else ue_getHTML view in
  when (negb (isEqualValue nextContents currentContents)) (
    modifyThis (set_lastDeltaChangeSet (Some delta)) ;;;
    setState (PatchValue nextContents) ;;;
    c <- getThis ;;
    optCall "onChange" (propOf (props c) "onChange")
            [html; delta; source; VHost (ue_ref view)]).

(** [onEditorChangeSelection] *)
Definition onEditorChangeSelection (nextSelection source : JsVal) (view : UnprivilegedEditor) : M unit :=
  currentSelection <- getEditorSelection ;;
  let hasGainedFocus := negb (truthy currentSelection) && truthy nextSelection in
  let hasLostFocus := truthy currentSelection && negb (truthy nextSelection) in
  if isEqual nextSelection currentSelection then ret tt
  else
    setState (PatchSelection nextSelection) ;;;
    c <- getThis ;;
    optCall "onChangeSelection" (propOf (props c) "onChangeSelection")
            [nextSelection; source; VHost (ue_ref view)] ;;;
    if hasGainedFocus then
      optCall "onFocus" (propOf (props c) "onFocus")
              [nextSelection; source; VHost (ue_ref view)]
    else if hasLostFocus then
      optCall "onBlur" (propOf (props c) "onBlur")
              [currentSelection; source; VHost (ue_ref view)]
    else ret tt.

(** [focus] *)
Definition focus : M unit :=
  c <- getThis ;;
  match editor c with
  | None => ret tt
  | Some h => quillFocus h
  end.

(** [blur] *)
Definition blur : M unit :=
  c <- getThis ;;
  match editor c with
  | None => ret tt
  | Some h => setEditorSelection h VNull
  end.

(** ** The lifecycle contract of the host framework *)

(** Committing a render: the editing area is an element keyed by the
    generation, and the ref callback stores it. *)
Definition commitRender : M unit :=
  modifyThis (fun c =>
    set_editingArea (Some (mkInstance (Some (mkNode 1 (generation (state c)))))) c).

Definition takePending : M (list StatePatch) := fun w =>
  mkOutcome (mkWorld (this w) [] (quills w)) [] (Returned (pendingState w)).

(** One update: the queued [setState] requests are merged into the next
    state, the component is asked whether to update, the new props and
    state are installed, and after a render the post-commit hook runs
    with the previous props and state.  An exception of
    [shouldComponentUpdate] ends the update where it is thrown; what
    React does with the error afterwards (unmounting the tree, which
    runs [componentWillUnmount]) is not part of this step. *)
Definition updateComponent (nextProps : Props) : M unit :=
  c <- getThis ;;
  patches <- takePending ;;
  let nextState := foldl applyPatch (state c) patches in
  update <- shouldComponentUpdate nextProps nextState ;;
  modifyThis (set_props_state nextProps nextState) ;;;
  if update : bool then
    commitRender ;;;
    componentDidUpdate (props c) (state c)
  else ret tt.

(** State written from inside a lifecycle method causes further update
    passes with unchanged props, until no request is left. *)
Fixpoint flushState (fuel : nat) : M unit :=
  match fuel with
  | O => ret tt
  | S fuel' =>
      fun w =>
        match pendingState w with
        | [] => ret tt w
        | _ :: _ => (updateComponent (props (this w)) ;;; flushState fuel') w
        end
  end.

(** The parent re-renders the component with [nextProps]. *)
Definition receiveProps (nextProps : Props) : M unit :=
  updateComponent nextProps ;;; flushState 4.

(** Mounting a component built from [p]. *)
Definition mount (p : Props) : Outcome unit :=
  (commitRender ;;; componentDidMount) (mkWorld (constructor p) [] []).

(** ** Predicates on computations *)

(** A computation that only reads: the world is left as it was and
    nothing is called. *)
Definition readsOnly {A} (m : M A) : Prop :=
  forall w, m w = mkOutcome w [] (result (m w)).

(** The only document [setEditorContents] may be called with while the
    props are [p0]: the [value] prop, which must be there, with [''] for
    a nullish one. *)
Definition pushOK (p0 : Props) (ev : Event) : Prop :=
  match ev with
  | SetEditorContents _ v =>
      hasProp p0 "value" = true /\ v = coalesce (propOf p0 "value") (VStr "")
  | _ => True
  end.

(** Started with props [p0], [m] keeps them, emits only allowed calls,
    and returns values satisfying [Q]. *)
Definition triple (p0 : Props) {A} (m : M A) (Q : A -> Prop) : Prop :=
  forall w, props (this w) = p0 ->
            props (this (after (m w))) = p0
            /\ Forall (pushOK p0) (emitted (m w))
            /\ forall a, result (m w) = Returned a -> Q a.

(** ** A running example *)

(** An externally-controlled editor with all four change callbacks. *)
Definition exampleProps : Props :=
  list_to_map
    [("theme", VStr "snow"); ("modules", VObj 1 []); ("readOnly", VBool false);
     ("value", VStr "<p>a</p>");
     ("onChange", VFun 10); ("onChangeSelection", VFun 11);
     ("onFocus", VFun 12); ("onBlur", VFun 13)].

(** The world once that editor is mounted. *)
Definition mountedWorld : World := after (mount exampleProps).

(** A change payload, a collapsed selection and the editor's view after
    the user typed one letter. *)
Definition exampleDelta : JsVal :=
  VObj 20 [("ops", VArr 21 [VObj 22 [("retain", VNum 1)];
                            VObj 23 [("insert", VStr "b")]])].

Definition exampleRange : JsVal := VObj 30 [("index", VNum 0); ("length", VNum 0)].

Definition exampleView : UnprivilegedEditor :=
  mkView 40
         (VObj 41 [("ops", VArr 42 [VObj 43 [("insert", VStr "ab\n")]])])
         (VStr "<p>ab</p>").

(** The world after the text-change handler has run on that edit. *)
Definition changedWorld : World :=
  after (onEditorChangeText (VStr "<p>ab</p>") exampleDelta (VStr "user")
                            exampleView mountedWorld).

(** The parent echoing the change payload back as [value]. *)
Definition echoProps : Props := <["value" := exampleDelta]> exampleProps.

(** The parent changing only an in-place-updatable prop. *)
Definition placeholderProps : Props := <["placeholder" := VStr "Write"]> exampleProps.

(** The component as constructed, before its first render: no editing
    area has been handed to the ref callback and no editor exists. *)
Definition constructedWorld : World := mkWorld (constructor exampleProps) [] [].

(** The parent changing the theme, a regeneration-triggering prop. *)
Definition bubbleProps : Props := <["theme" := VStr "bubble"]> exampleProps.

(** The parent supplying another document, together with a new
    placeholder. *)
Definition editedProps : Props :=
  <["value" := VStr "<p>b</p>"]> placeholderProps.

(** The world in which React has installed the props [p]. *)
Definition withProps (p : Props) (w : World) : World :=
  mkWorld (set_props_state p (state (this w)) (this w)) (pendingState w) (quills w).

(** Calls that create, and calls that destroy, a Quill instance. *)
Definition isCreate (ev : Event) : bool :=
  match ev with
  | QuillCreate _ _ _ => true
  | _ => false
  end.

Definition isDestroy (ev : Event) : bool :=
  match ev with
  | QuillUnhook _ => true
  | _ => false
  end.

(** The parent supplying another document and nothing else. *)
Definition valueOnlyProps : Props := <["value" := VStr "<p>b</p>"]> exampleProps.

(** The mounted editor once it tracks a selection. *)
Definition focusedWorld : World :=
  mkWorld (set_props_state exampleProps
             (mkState 0 (VStr "<p>a</p>") exampleRange) (this mountedWorld))
          [] (quills mountedWorld).

(** The parent passing [null] as the document. *)
Definition nullValueProps : Props := <["value" := VNull]> exampleProps.

(** ** Well-formed values and structural induction *)

(** No key occurs twice. *)
Fixpoint distinctKeys (ks : list string) : bool :=
  match ks with
  | [] => true
  | k :: ks' => negb (existsb (String.eqb k) ks') && distinctKeys ks'
  end.

(** A JavaScript value as the language has it: the own keys of every
    object, at any depth, are distinct. *)
Fixpoint wellFormed (v : JsVal) : bool :=
  match v with
  | VArr _ items => forallb wellFormed items
  | VObj _ fs =>
      distinctKeys (map fst fs) && forallb (fun kv => wellFormed (snd kv)) fs
  | _ => true
  end.

Section JsValInduction.

Variable P : JsVal -> Prop.
Hypothesis HUndef : P VUndef.
Hypothesis HNull : P VNull.
Hypothesis HBool : forall b, P (VBool b).
Hypothesis HNum : forall n, P (VNum n).
Hypothesis HStr : forall s, P (VStr s).
Hypothesis HArr : forall r items, Forall P items -> P (VArr r items).
Hypothesis HObj : forall r fs, Forall (fun kv => P (snd kv)) fs -> P (VObj r fs).
Hypothesis HFun : forall r, P (VFun r).
Hypothesis HHost : forall r, P (VHost r).

(** Induction through the items of arrays and the fields of objects. *)
Fixpoint JsVal_deep_ind (v : JsVal) : P v :=
  match v with
  | VUndef => HUndef
  | VNull => HNull
  | VBool b => HBool b
  | VNum n => HNum n
  | VStr s => HStr s
  | VArr r items =>
      HArr r items
           ((fix go (l : list JsVal) : Forall P l :=
               match l with
               | [] => List.Forall_nil P
               | x :: l' => @List.Forall_cons _ P x l' (JsVal_deep_ind x) (go l')
               end) items)
  | VObj r fs =>
      HObj r fs
           ((fix go (l : list (string * JsVal)) : Forall (fun kv => P (snd kv)) l :=
               match l with
               | [] => List.Forall_nil _
               | kv :: l' => @List.Forall_cons _ _ kv l' (JsVal_deep_ind (snd kv)) (go l')
               end) fs)
  | VFun r => HFun r
  | VHost r => HHost r
  end.

End JsValInduction.

(** ** Invariants of the component *)

(** [m] keeps the invariant [Inv] of worlds, also when it throws, and
    returns values satisfying [Q]. *)
Definition keeps (Inv : World -> Prop) {A} (m : M A) (Q : A -> Prop) : Prop :=
  forall w, Inv w ->
            Inv (after (m w)) /\ forall a, result (m w) = Returned a -> Q a.

(** The instances subscribed to are exactly the one [this.editor]
    refers to. *)
Definition ownsItsEditor (w : World) : Prop :=
  (forall h : nat, editor (this w) = Some h ->
             exists q, quills w !! h = Some q /\ q_hooked q = true)
  /\ (forall (h : nat) q, quills w !! h = Some q -> q_hooked q = true ->
                          editor (this w) = Some h).

(** A call that goes to React or to the parent, not to an editor. *)
Definition leavesEditorsAlone (ev : Event) : bool :=
  match ev with
  | SetState _ | Callback _ _ _ => true
  | _ => false
  end.

(** ** Further worlds of the running example *)

(** The world once React has applied the queued [setState] requests. *)
Definition appliedState (w : World) : World :=
  mkWorld (set_props_state (props (this w))
             (foldl applyPatch (state (this w)) (pendingState w)) (this w))
          [] (quills w).

(** The parent making the editor read-only. *)
Definition readOnlyProps : Props := <["readOnly" := VBool true]> exampleProps.

(** The component after its first render, before [componentDidMount]. *)
Definition renderedWorld : World := after (commitRender constructedWorld).

(** ** The restore block and the generation requests *)

(** The calls of the restore block of [componentDidUpdate]. *)
Definition isRestore (ev : Event) : bool :=
  match ev with
  | QuillSetContents _ _ | QuillSetSelection _ _ | QuillFocus _ => true
  | _ => false
  end.

Definition isBump (p : StatePatch) : bool :=
  match p with
  | PatchGeneration _ => true
  | _ => false
  end.

(** A generation request is pending only when [this.editor] has been
    deleted. *)
Definition bumpsOnlyWithoutEditor (w : World) : Prop :=
  editor (this w) = None \/ existsb isBump (pendingState w) = false.

(** Neither a restore call nor the creation of an instance. *)
Definition neitherRestoresNorCreates (ev : Event) : bool :=
  negb (isRestore ev) && negb (isCreate ev).

(** An outcome that kept the invariant and made no such call. *)
Definition calm {A} (o : Outcome A) : Prop :=
  bumpsOnlyWithoutEditor (after o)
  /\ forallb neitherRestoresNorCreates (emitted o) = true.

(** ** Pushes and generation requests *)

(** A document written into an instance by the component. *)
Definition isPush (ev : Event) : bool :=
  match ev with
  | SetEditorContents _ _ => true
  | _ => false
  end.

(** A request for a new generation. *)
Definition isBumpRequest (ev : Event) : bool :=
  match ev with
  | SetState p => isBump p
  | _ => false
  end.

(** The parent taking over the user's edit as [value], together with a
    new placeholder. *)
Definition typedProps : Props := <["value" := VStr "<p>ab</p>"]> placeholderProps.

(** * Properties *)

Arguments propOf : simpl never.
Arguments hasProp : simpl never.
Arguments somePropDiffers : simpl never.
Arguments isEqualValue : simpl never.
Arguments isEqual : simpl never.
Arguments truthy : simpl never.
Arguments strictEquals : simpl never.
Arguments coalesce : simpl never.

(** ** Deep equality and the value comparison *)

Section DeepEquality.

Lemma field_sat_assoc (p : JsVal -> bool) (k : string) (fs : list (string * JsVal)) :
  field_sat p k fs = match assoc k fs with
                     | Some v => p v
                     | None => false
                     end.
Proof.
  induction fs as [|kv fs IH]; simpl; [reflexivity|].
  destruct (String.eqb (fst kv) k); [reflexivity|exact IH].
Qed.

Lemma every_field_assoc (p : string -> JsVal -> bool) (fs : list (string * JsVal))
      (k : string) (v : JsVal) :
  every_field p fs = true -> assoc k fs = Some v -> p k v = true.
Proof.
  induction fs as [|kv fs IH]; simpl; [discriminate|].
  intros Hall Hk. apply andb_prop in Hall as [Hp Hrest].
  destruct (String.eqb (fst kv) k) eqn:E.
  - apply String.eqb_eq in E. inversion Hk; subst. exact Hp.
  - apply IH; assumption.
Qed.

Lemma isEqual_obj (r r' : ref) (fa fb : list (string * JsVal)) :
  isEqual (VObj r fa) (VObj r' fb) =
  every_field (fun k v => field_sat (fun v' => isEqual v v') k fb) fa
  && every_field (fun k v' => field_sat (fun v => isEqual v v') k fa) fb.
Proof. reflexivity. Qed.

(** Deeply equal values are both truthy or both falsy. *)
Lemma isEqual_truthy (a b : JsVal) :
  isEqual a b = true -> truthy a = truthy b.
Proof.
  destruct a, b; simpl; try discriminate; try reflexivity; intros H.
  - apply Bool.eqb_prop in H. congruence.
  - apply Z.eqb_eq in H. congruence.
  - apply String.eqb_eq in H. congruence.
Qed.

(** Deeply equal values have deeply equal properties. *)
Lemma isEqual_getProp (a b : JsVal) (k : string) :
  isEqual a b = true -> isEqual (getProp a k) (getProp b k) = true.
Proof.
  destruct a, b; try discriminate; try reflexivity.
  rewrite isEqual_obj. intros H. apply andb_prop in H as [Hab Hba].
  unfold getProp.
  destruct (assoc k fields) as [v|] eqn:Ea.
  - pose proof (every_field_assoc _ _ _ _ Hab Ea) as Hv. cbv beta in Hv.
    rewrite field_sat_assoc in Hv.
    destruct (assoc k fields0) as [v'|]; [exact Hv|discriminate].
  - destruct (assoc k fields0) as [v'|] eqn:Eb; [|reflexivity].
    pose proof (every_field_assoc _ _ _ _ Hba Eb) as Hv. cbv beta in Hv.
    rewrite field_sat_assoc, Ea in Hv. discriminate.
Qed.

Lemma isEqual_isDelta (a b : JsVal) :
  isEqual a b = true -> isDelta a = isDelta b.
Proof.
  intros H. unfold isDelta.
  rewrite (isEqual_truthy _ _ H).
  rewrite (isEqual_truthy _ _ (isEqual_getProp _ _ "ops" H)).
  reflexivity.
Qed.

Lemma isDelta_VStr (s : string) : isDelta (VStr s) = false.
Proof. unfold isDelta. simpl. apply andb_false_r. Qed.

End DeepEquality.

(** C4.  [isEqualValue] holds exactly when both values are structured
    ([isDelta]) and their [ops] are deeply equal, or neither is
    structured and the two are deeply equal; a structured value is
    equal to no string, on either side, and [{ops: [{insert: "a"}]}]
    differs from ["a"]. *)
Theorem isEqualValue_iff (a b : JsVal) (s : string) :
  (isEqualValue a b = true <->
   (isDelta a = true /\ isDelta b = true
    /\ isEqual (getProp a "ops") (getProp b "ops") = true)
   \/ (isDelta a = false /\ isDelta b = false /\ isEqual a b = true))
  /\ isDelta a && (isEqualValue a (VStr s) || isEqualValue (VStr s) a) = false
  /\ isEqualValue (VObj 1 [("ops", VArr 2 [VObj 3 [("insert", VStr "a")]])])
                  (VStr "a") = false.
Proof.
  split; [|split; [|reflexivity]].
  - unfold isEqualValue.
    destruct (isDelta a) eqn:Da, (isDelta b) eqn:Db; simpl.
    + split; [intros H; left; auto|].
      intros [(_ & _ & H)|(H & _)]; [exact H|discriminate].
    + split.
      * intros H. apply isEqual_isDelta in H. congruence.
      * intros [(_ & H & _)|(H & _)]; discriminate.
    + split.
      * intros H. apply isEqual_isDelta in H. congruence.
      * intros [(H & _)|(_ & H & _)]; discriminate.
    + split; [intros H; right; auto|].
      intros [(H & _)|(_ & _ & H)]; [discriminate|exact H].
  - unfold isEqualValue. rewrite isDelta_VStr, andb_false_r. simpl.
    destruct (isDelta a) eqn:Da; [|reflexivity]. simpl.
    destruct a; try reflexivity.
    rewrite isDelta_VStr in Da. discriminate.
Qed.

(** ** Change events *)

Lemma optCall_outcome (name : string) (f : JsVal) (args : list JsVal) (w : World) :
  callable f = true ->
  optCall name f args w = mkOutcome w (callsOf name f args) (Returned tt).
Proof. destruct f; try discriminate; reflexivity. Qed.



(** C3.  On a raw selection change that is deeply equal to the tracked
    selection nothing happens.  Otherwise the new selection is written
    to the state and [onChangeSelection] is called with it; then
    [onFocus] is called with the new selection when the tracked one was
    absent and the new one is present, or else [onBlur] is called with
    the tracked (previous) selection when that was present and the new
    one is absent; never both.  A callback that is missing is skipped. *)
Theorem onEditorChangeSelection_spec
        (nextSelection source : JsVal) (view : UnprivilegedEditor) (w : World) :
  callable (propOf (props (this w)) "onChangeSelection") = true ->
  callable (propOf (props (this w)) "onFocus") = true ->
  callable (propOf (props (this w)) "onBlur") = true ->
  let currentSelection := selection (state (this w)) in
  let o := onEditorChangeSelection nextSelection source view w in
  (isEqual nextSelection currentSelection = true ->
   o = mkOutcome w [] (Returned tt))
  /\ (isEqual nextSelection currentSelection = false ->
      after o = mkWorld (this w) (pendingState w ++ [PatchSelection nextSelection])
                        (quills w)
      /\ selection (foldl applyPatch (state (this w)) (pendingState (after o)))
         = nextSelection
      /\ result o = Returned tt
      /\ emitted o =
         SetState (PatchSelection nextSelection)
         :: callsOf "onChangeSelection" (propOf (props (this w)) "onChangeSelection")
                    [nextSelection; source; VHost (ue_ref view)]
         ++ (if negb (truthy currentSelection) && truthy nextSelection
             then callsOf "onFocus" (propOf (props (this w)) "onFocus")
                          [nextSelection; source; VHost (ue_ref view)]
             else if truthy currentSelection && negb (truthy nextSelection)
             then callsOf "onBlur" (propOf (props (this w)) "onBlur")
                          [currentSelection; source; VHost (ue_ref view)]
             else [])).
Proof.
  intros Hsel Hfocus Hblur. cbv zeta.
  unfold onEditorChangeSelection, getEditorSelection, bind, getThis, ret; simpl.
  destruct (isEqual _ _) eqn:E; simpl.
  - split; [intros _|discriminate]. destruct w; reflexivity.
  - split; [discriminate|intros _].
    rewrite (optCall_outcome "onChangeSelection") by exact Hsel. simpl.
    destruct (negb (truthy (selection (state (this w)))) && truthy nextSelection).
    + rewrite (optCall_outcome "onFocus") by exact Hfocus. simpl.
      repeat split; try reflexivity. rewrite foldl_app. reflexivity.
    + destruct (truthy (selection (state (this w))) && negb (truthy nextSelection)).
      * rewrite (optCall_outcome "onBlur") by exact Hblur. simpl.
        repeat split; try reflexivity. rewrite foldl_app. reflexivity.
      * simpl. repeat split; try reflexivity. rewrite foldl_app. reflexivity.
Qed.

Lemma onEditorChangeSelection_witness :
  emitted (onEditorChangeSelection exampleRange (VStr "user") exampleView mountedWorld)
  = [SetState (PatchSelection exampleRange);
     Callback "onChangeSelection" 11 [exampleRange; VStr "user"; VHost 40];
     Callback "onFocus" 12 [exampleRange; VStr "user"; VHost 40]].
Proof.
  exact (proj2 (proj2 (proj2 (proj2 (onEditorChangeSelection_spec
                         exampleRange (VStr "user") exampleView mountedWorld
                         eq_refl eq_refl eq_refl) eq_refl)))).
Defined.

(** Losing the selection calls [onBlur] with the range that was
    tracked, not with [null]. *)
Example onEditorChangeSelection_blur :
  emitted (onEditorChangeSelection VNull (VStr "user") exampleView focusedWorld)
  = [SetState (PatchSelection VNull);
     Callback "onChangeSelection" 11 [VNull; VStr "user"; VHost 40];
     Callback "onBlur" 13 [exampleRange; VStr "user"; VHost 40]].
Proof. reflexivity. Qed.

(** ** Prop validation and the pre-update decision *)

Section Validation.

Lemma check_outcome (b : bool) (e : Error) (w : World) :
  check b e w = mkOutcome w [] (if b then Thrown e else Returned tt).
Proof. destruct b; reflexivity. Qed.

Lemma readsOnly_bind {A B} (m : M A) (k : A -> M B) :
  readsOnly m -> (forall a, readsOnly (k a)) -> readsOnly (bind m k).
Proof.
  intros Hm Hk w. unfold bind. rewrite (Hm w).
  cbn [result after emitted].
  destruct (result (m w)) as [a|e]; [|reflexivity].
  rewrite (Hk a w). reflexivity.
Qed.

Lemma result_bind_readsOnly {A B} (m : M A) (k : A -> M B) (w : World) :
  readsOnly m ->
  result (bind m k w) = match result (m w) with
                        | Returned a => result (k a w)
                        | Thrown e => Thrown e
                        end.
Proof.
  intros Hm. unfold bind. specialize (Hm w).
  destruct (m w) as [w1 ev1 r1]. cbn [result] in *.
  inversion Hm; subst.
  destruct r1 as [a|e]; [|reflexivity].
  destruct (k a w); reflexivity.
Qed.

Lemma readsOnly_check (b : bool) (e : Error) : readsOnly (check b e).
Proof. intros w. rewrite check_outcome. reflexivity. Qed.

Lemma readsOnly_getThis : readsOnly getThis.
Proof. intros w. reflexivity. Qed.

Lemma readsOnly_ret {A} (a : A) : readsOnly (ret a).
Proof. intros w. reflexivity. Qed.

Lemma readsOnly_throw {A} (e : Error) : readsOnly (@throw A e).
Proof. intros w. reflexivity. Qed.

(** Validation reads; it writes nothing and calls nothing. *)
Lemma validateProps_readsOnly (p : Props) : readsOnly (validateProps p).
Proof.
  unfold validateProps.
  repeat (apply readsOnly_bind; [|intros ?]);
    try apply readsOnly_check; try apply readsOnly_getThis.
  destruct (0 <? childrenCount (propOf p "children"))%nat;
    [|apply readsOnly_ret].
  destruct (childrenOnly (propOf p "children"));
    [apply readsOnly_check|apply readsOnly_throw].
Qed.

Lemma validateProps_outcome (p : Props) (w : World) :
  validateProps p w = mkOutcome w [] (result (validateProps p w)).
Proof. apply validateProps_readsOnly. Qed.

Lemma result_bind_check {B} (b : bool) (e : Error) (k : unit -> M B) (w : World) :
  result (bind (check b e) k w)
  = if b then Thrown e else result (k tt w).
Proof.
  unfold bind. rewrite check_outcome.
  destruct b; [reflexivity|]. destruct (k tt w); reflexivity.
Qed.

Lemma hasProp_delete_ne (p : Props) (k k' : string) :
  k <> k' -> hasProp (delete k p) k' = hasProp p k'.
Proof. intros H. unfold hasProp. rewrite lookup_delete_ne by exact H. reflexivity. Qed.

Lemma propOf_delete_ne (p : Props) (k k' : string) :
  k <> k' -> propOf (delete k p) k' = propOf p k'.
Proof. intros H. unfold propOf. rewrite lookup_delete_ne by exact H. reflexivity. Qed.

Lemma somePropDiffers_true (keys : list string) (nextProps thisProps : Props) :
  somePropDiffers keys nextProps thisProps = true <->
  exists key, In key keys
              /\ isEqual (propOf nextProps key) (propOf thisProps key) = false.
Proof.
  unfold somePropDiffers. rewrite existsb_exists.
  split; intros (key & Hin & H); exists key; (split; [exact Hin|]).
  - apply negb_true_iff in H. exact H.
  - rewrite H. reflexivity.
Qed.

(** The checks on the configuration do not look at [value]; the last
    check is the only one that does. *)
Lemma validateProps_echo (p : Props) (w : World) (d : JsVal) :
  lastDeltaChangeSet (this w) = Some d ->
  truthy d = true ->
  strictEquals (propOf p "value") d = true ->
  exists e,
    result (validateProps p w) = Thrown e
    /\ (result (validateProps (delete "value" p) w) = Returned tt ->
        e = ErrDeltaAsValue).
Proof.
  intros Hlast Htruthy Heq.
  unfold validateProps.
  rewrite !result_bind_check.
  rewrite !hasProp_delete_ne, !propOf_delete_ne by discriminate.
  repeat match goal with
         | |- context [if ?b then Thrown ?e else _] =>
             destruct b;
             [exists e; split; [reflexivity|discriminate]|]
         end.
  assert (forall q : Props,
             result (bind getThis (fun c =>
               check match lastDeltaChangeSet c with
                     | Some d0 => truthy d0 && strictEquals (propOf q "value") d0
                     | None => false
                     end ErrDeltaAsValue) w)
             = if truthy d && strictEquals (propOf q "value") d
               then Thrown ErrDeltaAsValue else Returned tt) as Hlast_check.
  { intros q. unfold bind, getThis.
    rewrite check_outcome, Hlast. cbn [result app].
    destruct (truthy d && strictEquals (propOf q "value") d); reflexivity. }
  match goal with
  | |- exists e, result (bind ?X _ w) = _ /\ _ =>
      assert (readsOnly X) as HX
  end.
  { destruct (0 <? childrenCount (propOf p "children"))%nat;
      [|apply readsOnly_ret].
    destruct (childrenOnly (propOf p "children"));
      [apply readsOnly_check|apply readsOnly_throw]. }
  rewrite !(result_bind_readsOnly _ _ w HX).
  match goal with
  | |- context [result (?X w)] => destruct (result (X w)) as [[]|e0]
  end.
  - rewrite !Hlast_check, Htruthy, Heq.
    exists ErrDeltaAsValue. split; reflexivity.
  - exists e0. split; [reflexivity|discriminate].
Qed.

End Validation.

(** C5.  When the next [value] prop is the very object that
    [onEditorChangeText] last recorded as the change payload,
    [shouldComponentUpdate] throws out of [validateProps] before doing
    anything else: no field of the component or of a Quill instance is
    written and nothing is called.  The error is the one about passing
    the delta back as [value], unless the rest of the configuration is
    already rejected by an earlier check. *)
Theorem echoed_delta_is_rejected
        (nextProps : Props) (nextState : ReactQuillState) (w : World)
        (r : ref) (fs : list (string * JsVal)) :
  lastDeltaChangeSet (this w) = Some (VObj r fs) ->
  strictEquals (propOf nextProps "value") (VObj r fs) = true ->
  exists e,
    shouldComponentUpdate nextProps nextState w = mkOutcome w [] (Thrown e)
    /\ (result (validateProps (delete "value" nextProps) w) = Returned tt ->
        e = ErrDeltaAsValue).
Proof.
  intros Hlast Heq.
  destruct (validateProps_echo nextProps w (VObj r fs) Hlast eq_refl Heq)
    as (e & He & Hkind).
  exists e. split; [|exact Hkind].
  unfold shouldComponentUpdate, bind.
  rewrite validateProps_outcome, He. reflexivity.
Qed.

Lemma echoed_delta_is_rejected_witness :
  exists e,
    shouldComponentUpdate echoProps (state (this changedWorld)) changedWorld
    = mkOutcome changedWorld [] (Thrown e)
    /\ (result (validateProps (delete "value" echoProps) changedWorld) = Returned tt ->
        e = ErrDeltaAsValue).
Proof.
  exact (echoed_delta_is_rejected echoProps (state (this changedWorld)) changedWorld
                                  20 _ eq_refl eq_refl).
Defined.

(** C7.  Once the next props have passed validation,
    [shouldComponentUpdate] answers, without writing anything, [true]
    exactly when the generation differs between the current and the
    next state or some key of [cleanProps] or [dirtyProps] has values
    that are not deeply equal in the next and the current props.  With
    the generation unchanged and every listed key deeply equal the
    answer is [false], whatever else changed. *)
Theorem shouldComponentUpdate_decision
        (nextProps : Props) (nextState : ReactQuillState) (w : World) :
  result (validateProps nextProps w) = Returned tt ->
  exists update : bool,
    shouldComponentUpdate nextProps nextState w = mkOutcome w [] (Returned update)
    /\ (update = true <->
        generation (state (this w)) <> generation nextState
        \/ exists key, In key (cleanProps ++ dirtyProps)
                       /\ isEqual (propOf nextProps key)
                                  (propOf (props (this w)) key) = false)
    /\ (generation (state (this w)) = generation nextState ->
        (forall key, In key (cleanProps ++ dirtyProps) ->
                     isEqual (propOf nextProps key) (propOf (props (this w)) key) = true) ->
        update = false).
Proof.
  intros Hvalid.
  unfold shouldComponentUpdate, bind.
  rewrite validateProps_outcome, Hvalid. simpl.
  destruct (generation (state (this w)) =? generation nextState) eqn:G; simpl.
  - apply Z.eqb_eq in G.
    eexists; split; [destruct w; reflexivity|]. split.
    + rewrite somePropDiffers_true. split; [intros H; right; exact H|].
      intros [H|H]; [contradiction|exact H].
    + intros _ Hsame.
      destruct (somePropDiffers _ _ _) eqn:E; [|reflexivity].
      apply somePropDiffers_true in E as (key & Hin & Hne).
      rewrite (Hsame key Hin) in Hne. discriminate.
  - apply Z.eqb_neq in G.
    eexists; split; [destruct w; reflexivity|]. split.
    + split; [intros _; left; exact G|reflexivity].
    + intros Hgen. contradiction.
Qed.

Lemma shouldComponentUpdate_decision_witness :
  exists update : bool,
    shouldComponentUpdate placeholderProps (state (this mountedWorld)) mountedWorld
    = mkOutcome mountedWorld [] (Returned update)
    /\ (update = true <->
        generation (state (this mountedWorld)) <> generation (state (this mountedWorld))
        \/ exists key, In key (cleanProps ++ dirtyProps)
                       /\ isEqual (propOf placeholderProps key)
                                  (propOf (props (this mountedWorld)) key) = false)
    /\ (generation (state (this mountedWorld)) = generation (state (this mountedWorld)) ->
        (forall key, In key (cleanProps ++ dirtyProps) ->
                     isEqual (propOf placeholderProps key)
                             (propOf (props (this mountedWorld)) key) = true) ->
        update = false).
Proof.
  exact (shouldComponentUpdate_decision placeholderProps (state (this mountedWorld))
                                        mountedWorld eq_refl).
Defined.

(** A [modules] object built anew by the parent, with the same
    content, is no difference. *)
Example shouldComponentUpdate_compares_deeply :
  shouldComponentUpdate (<["modules" := VObj 99 []]> exampleProps)
                        (state (this mountedWorld)) mountedWorld
  = mkOutcome mountedWorld [] (Returned false).
Proof. vm_compute. reflexivity. Qed.

(** ** The editor handle *)

(** C9, as the claim has it, fails: with no instance at all,
    [instantiateEditor] still throws when there is no editing area to
    instantiate on. *)
Lemma instantiateEditor_throws_without_instance :
  editor (this constructedWorld) = None
  /\ instantiateEditor constructedWorld
     = mkOutcome constructedWorld [] (Thrown ErrMissingEditingArea).
Proof. split; reflexivity. Qed.

Section EditorHandle.

Lemma world_eta (w : World) : mkWorld (this w) (pendingState w) (quills w) = w.
Proof. destruct w; reflexivity. Qed.

Lemma getEditingArea_readsOnly : readsOnly getEditingArea.
Proof.
  unfold getEditingArea. apply readsOnly_bind; [apply readsOnly_getThis|].
  intros c. destruct (editingArea c) as [[[element|]]|]; cbn [domNode];
    try apply readsOnly_throw.
  destruct (nodeType element =? 3); [apply readsOnly_throw|apply readsOnly_ret].
Qed.

Lemma getEditingArea_error (w : World) (e : Error) :
  result (getEditingArea w) = Thrown e -> e <> ErrAlreadyInstantiated.
Proof.
  unfold getEditingArea, bind, getThis. cbn [result after emitted].
  destruct (editingArea (this w)) as [[[element|]]|]; cbn.
  - destruct (nodeType element =? 3); cbn; intros H; inversion H; discriminate.
  - intros H; inversion H; discriminate.
  - intros H; inversion H; discriminate.
Qed.

Lemma instantiateEditor_existing (w : World) (h : handle) :
  editor (this w) = Some h ->
  instantiateEditor w = mkOutcome w [] (Thrown ErrAlreadyInstantiated).
Proof.
  intros H. unfold instantiateEditor, bind, getThis. cbn [result after emitted].
  rewrite H. reflexivity.
Qed.

Lemma instantiateEditor_fresh (w : World) :
  editor (this w) = None ->
  match result (getEditingArea w) with
  | Thrown e => instantiateEditor w = mkOutcome w [] (Thrown e)
  | Returned element =>
      exists config,
        result (getEditorConfig w) = Returned config
        /\ instantiateEditor w
           = mkOutcome
               (mkWorld (set_editor (Some (length (quills w))) (this w))
                        (pendingState w)
                        (quills w ++ [mkQuill element config blankDelta VNull false
                                              (negb (truthy (o_readOnly config))) true]))
               [QuillCreate (length (quills w)) element config] (Returned tt)
  end.
Proof.
  intros Hnone.
  destruct (result (getEditingArea w)) as [element|e] eqn:Earea.
  - eexists. split; [reflexivity|].
    unfold instantiateEditor, bind, getThis. cbn [result after emitted].
    rewrite Hnone, (getEditingArea_readsOnly w), Earea.
    reflexivity.
  - unfold instantiateEditor, bind, getThis. cbn [result after emitted].
    rewrite Hnone, (getEditingArea_readsOnly w), Earea.
    reflexivity.
Qed.

Lemma destroyEditor_existing (w : World) (h : handle) :
  editor (this w) = Some h ->
  destroyEditor w
  = mkOutcome
      (mkWorld (set_editor None (this w)) (pendingState w)
               (alter (withHooked false) h (quills w)))
      [QuillUnhook h] (Returned tt).
Proof.
  intros H.
  unfold destroyEditor, unhookEditor, bind, getThis, modifyQuills, modifyThis, emit.
  cbn [result after emitted this pendingState quills app].
  rewrite H. reflexivity.
Qed.

Lemma destroyEditor_missing (w : World) :
  editor (this w) = None ->
  destroyEditor w = mkOutcome w [] (Thrown ErrDestroyBeforeInstantiation).
Proof.
  intros H. unfold destroyEditor, bind, getThis. cbn [result after emitted].
  rewrite H. reflexivity.
Qed.

Lemma getEditor_outcome (w : World) :
  getEditor w = mkOutcome w [] match editor (this w) with
                               | Some h => Returned h
                               | None => Thrown ErrNonInstantiated
                               end.
Proof.
  unfold getEditor, bind, getThis. cbn [result after emitted].
  destruct (editor (this w)); reflexivity.
Qed.

Lemma focus_without_editor (w : World) :
  editor (this w) = None -> focus w = mkOutcome w [] (Returned tt).
Proof.
  intros H. unfold focus, bind, getThis. cbn [result after emitted].
  rewrite H. reflexivity.
Qed.

Lemma blur_without_editor (w : World) :
  editor (this w) = None -> blur w = mkOutcome w [] (Returned tt).
Proof.
  intros H. unfold blur, bind, getThis. cbn [result after emitted].
  rewrite H. reflexivity.
Qed.

End EditorHandle.

(** C9, amended.  [instantiateEditor] throws its already-instantiated
    error exactly when an instance exists; with no instance it throws
    what [getEditingArea] throws (missing area, no element, text node)
    and otherwise creates one instance on the resolved element and
    stores its handle.  [destroyEditor] throws exactly when no instance
    exists, and otherwise unhooks the instance and deletes the handle.
    [getEditor] throws exactly when no instance exists.  With no
    instance, [focus] and [blur] return without writing or calling
    anything. *)
Theorem editor_handle_contract (w : World) :
  (result (instantiateEditor w) = Thrown ErrAlreadyInstantiated
   <-> is_Some (editor (this w)))
  /\ (editor (this w) = None ->
      match result (getEditingArea w) with
      | Thrown e => instantiateEditor w = mkOutcome w [] (Thrown e)
      | Returned element =>
          exists config,
            result (getEditorConfig w) = Returned config
            /\ instantiateEditor w
               = mkOutcome
                   (mkWorld (set_editor (Some (length (quills w))) (this w))
                            (pendingState w)
                            (quills w ++ [mkQuill element config blankDelta VNull false
                                                  (negb (truthy (o_readOnly config)))
                                                  true]))
                   [QuillCreate (length (quills w)) element config] (Returned tt)
      end)
  /\ ((exists e, result (destroyEditor w) = Thrown e) <-> editor (this w) = None)
  /\ (forall h, editor (this w) = Some h ->
                editor (this (after (destroyEditor w))) = None
                /\ emitted (destroyEditor w) = [QuillUnhook h]
                /\ result (destroyEditor w) = Returned tt)
  /\ ((exists e, result (getEditor w) = Thrown e) <-> editor (this w) = None)
  /\ (editor (this w) = None ->
      focus w = mkOutcome w [] (Returned tt)
      /\ blur w = mkOutcome w [] (Returned tt)).
Proof.
  split; [|split; [|split; [|split; [|split]]]].
  - split.
    + intros Hthrown. destruct (editor (this w)) as [h|] eqn:E; [eauto|].
      pose proof (instantiateEditor_fresh w E) as Hfresh.
      destruct (result (getEditingArea w)) as [element|e] eqn:Earea.
      * destruct Hfresh as (config & _ & Hrun). rewrite Hrun in Hthrown.
        discriminate.
      * rewrite Hfresh in Hthrown. cbn in Hthrown. inversion Hthrown; subst.
        exfalso. exact (getEditingArea_error w _ Earea eq_refl).
    + intros [h Hh]. rewrite (instantiateEditor_existing w h Hh). reflexivity.
  - apply instantiateEditor_fresh.
  - split.
    + intros [e He]. destruct (editor (this w)) as [h|] eqn:E; [|reflexivity].
      rewrite (destroyEditor_existing w h E) in He. discriminate.
    + intros Hnone. rewrite (destroyEditor_missing w Hnone). eauto.
  - intros h Hh. rewrite (destroyEditor_existing w h Hh). auto.
  - rewrite getEditor_outcome. cbn [result]. split.
    + intros [e He]. destruct (editor (this w)); [discriminate|reflexivity].
    + intros ->. eauto.
  - intros Hnone. split.
    + apply focus_without_editor, Hnone.
    + apply blur_without_editor, Hnone.
Qed.

(** ** The post-commit pass *)

Section PostCommit.

Variables (prevProps : Props) (prevState : ReactQuillState) (w : World).

Let nextContents : JsVal := coalesce (propOf (props (this w)) "value") (VStr "").

(** The value branch runs [setEditorContents]. *)
Let pushes : bool :=
  hasProp (props (this w)) "value"
  && negb (isEqualValue nextContents (value prevState)).

(** The read-only branch runs [setEditorReadOnly]. *)
Let toggles : bool :=
  hasProp (props (this w)) "readOnly"
  && negb (strictEquals (propOf (props (this w)) "readOnly")
                        (propOf prevProps "readOnly")).

Lemma componentDidUpdate_without_editor :
  editor (this w) = None ->
  componentDidUpdate prevProps prevState w = mkOutcome w [] (Returned tt).
Proof.
  intros He. unfold componentDidUpdate, bind, getThis. rewrite He. reflexivity.
Qed.

Ltac run_tail :=
  unfold setEditorContents, setEditorReadOnly, bind, modifyQuills, emit, when, ret;
  simpl.

(** No dirty prop changed and the generation is the previous one:
    only the value and read-only branches can run, on the live
    instance. *)
Lemma componentDidUpdate_steady (h : handle) :
  editor (this w) = Some h ->
  generation (state (this w)) = generation prevState ->
  somePropDiffers dirtyProps prevProps (props (this w)) = false ->
  componentDidUpdate prevProps prevState w
  = mkOutcome
      (mkWorld (this w) (pendingState w)
               ((if toggles
                 then alter (withEnabled
                               (negb (truthy (propOf (props (this w)) "readOnly")))) h
                 else id)
                  ((if pushes then alter (withContents nextContents) h else id)
                     (quills w))))
      ((if pushes then [SetEditorContents h nextContents] else [])
         ++ (if toggles
             then [SetEditorReadOnly h (propOf (props (this w)) "readOnly")]
             else []))
      (Returned tt).
Proof.
  intros He Hg Hr. subst pushes toggles nextContents.
  unfold componentDidUpdate, shouldComponentRegenerate, bind, getThis, ret, when.
  simpl. rewrite He. simpl. rewrite Hr. simpl. rewrite Hg, Z.eqb_refl. simpl.
  destruct (hasProp (props (this w)) "value"); simpl;
    [destruct (isEqualValue _ _); simpl|];
    (destruct (hasProp (props (this w)) "readOnly"); simpl;
     [destruct (strictEquals _ _); simpl|]);
    run_tail; destruct w; reflexivity.
Qed.

(** A dirty prop changed and the generation is the previous one: the
    snapshot is taken from the live instance, the generation bump is
    requested, the instance is unhooked and [this.editor] deleted;
    the value and read-only branches then still run on the handle
    bound at the start. *)
Lemma componentDidUpdate_regenerating (h : handle) :
  editor (this w) = Some h ->
  generation (state (this w)) = generation prevState ->
  somePropDiffers dirtyProps prevProps (props (this w)) = true ->
  componentDidUpdate prevProps prevState w
  = mkOutcome
      (mkWorld (set_editor None
                  (set_regenerationSnapshot
                     (Some (mkSnapshot
                              (default VUndef (q_contents <$> quills w !! h))
                              (default VNull (q_selection <$> quills w !! h))))
                     (this w)))
               (pendingState w ++ [PatchGeneration (generation (state (this w)) + 1)])
               ((if toggles
                 then alter (withEnabled
                               (negb (truthy (propOf (props (this w)) "readOnly")))) h
                 else id)
                  ((if pushes then alter (withContents nextContents) h else id)
                     (alter (withHooked false) h (quills w)))))
      ([SetState (PatchGeneration (generation (state (this w)) + 1)); QuillUnhook h]
         ++ (if pushes then [SetEditorContents h nextContents] else [])
         ++ (if toggles
             then [SetEditorReadOnly h (propOf (props (this w)) "readOnly")]
             else []))
      (Returned tt).
Proof.
  intros He Hg Hr. subst pushes toggles nextContents.
  unfold componentDidUpdate, shouldComponentRegenerate, bind, getThis, ret, when.
  simpl. rewrite He. simpl. rewrite Hr. simpl.
  unfold quillGetContents, quillGetSelection, destroyEditor, unhookEditor, setState,
    bind, getThis, getQuills, modifyThis, modifyQuills, emit, ret.
  simpl. rewrite He. simpl. rewrite Hg, Z.eqb_refl. simpl.
  destruct (hasProp (props (this w)) "value"); simpl;
    [destruct (isEqualValue _ _); simpl|];
    (destruct (hasProp (props (this w)) "readOnly"); simpl;
     [destruct (strictEquals _ _); simpl|]);
    run_tail; reflexivity.
Qed.

End PostCommit.

(** ** What a post-commit pass can push *)

Section PushedValues.

Variable p0 : Props.

Lemma triple_ret {A} (a : A) (Q : A -> Prop) : Q a -> triple p0 (ret a) Q.
Proof.
  intros HQ w Hw. cbn. repeat split; [exact Hw|constructor|].
  intros a' [= <-]. exact HQ.
Qed.

Lemma triple_throw {A} (e : Error) (Q : A -> Prop) : triple p0 (throw e) Q.
Proof.
  intros w Hw. cbn. repeat split; [exact Hw|constructor|]. discriminate.
Qed.

Lemma triple_bind {A B} (m : M A) (k : A -> M B) (Q : A -> Prop) (Q' : B -> Prop) :
  triple p0 m Q -> (forall a, Q a -> triple p0 (k a) Q') -> triple p0 (bind m k) Q'.
Proof.
  intros Hm Hk w Hw. unfold bind.
  destruct (Hm w Hw) as (Hp & He & Hr).
  destruct (m w) as [w1 ev1 [a|e]]; cbn in *.
  - destruct (Hk a (Hr a eq_refl) w1 Hp) as (Hp' & He' & Hr').
    destruct (k a w1) as [w2 ev2 r2]; cbn in *.
    repeat split; [exact Hp'| |exact Hr'].
    apply Forall_app. split; assumption.
  - repeat split; [exact Hp|exact He|]. discriminate.
Qed.

Lemma triple_getThis : triple p0 getThis (fun c => props c = p0).
Proof.
  intros w Hw. cbn. repeat split; [exact Hw|constructor|].
  intros a [= <-]. exact Hw.
Qed.

Lemma triple_getQuills : triple p0 getQuills (fun _ => True).
Proof. intros w Hw. cbn. repeat split; [exact Hw|constructor]. Qed.

Lemma triple_modifyThis (f : ReactQuill -> ReactQuill) :
  (forall c, props (f c) = props c) -> triple p0 (modifyThis f) (fun _ => True).
Proof.
  intros Hf w Hw. cbn. repeat split; [|constructor]. rewrite Hf. exact Hw.
Qed.

Lemma triple_modifyQuills (f : list Quill -> list Quill) :
  triple p0 (modifyQuills f) (fun _ => True).
Proof. intros w Hw. cbn. repeat split; [exact Hw|constructor]. Qed.

Lemma triple_emit (ev : Event) : pushOK p0 ev -> triple p0 (emit ev) (fun _ => True).
Proof.
  intros Hev w Hw. cbn. repeat split; [exact Hw|]. constructor; [exact Hev|constructor].
Qed.

Lemma triple_setState (p : StatePatch) : triple p0 (setState p) (fun _ => True).
Proof.
  intros w Hw. cbn. repeat split; [exact Hw|]. constructor; [exact I|constructor].
Qed.

Lemma triple_when (b : bool) (m : M unit) :
  (b = true -> triple p0 m (fun _ => True)) -> triple p0 (when b m) (fun _ => True).
Proof.
  intros Hm. destruct b; [apply Hm; reflexivity|apply triple_ret; exact I].
Qed.

Lemma triple_any {A} (m : M A) (Q : A -> Prop) :
  triple p0 m Q -> triple p0 m (fun _ => True).
Proof.
  intros Hm w Hw. destruct (Hm w Hw) as (Hp & He & _). auto.
Qed.

Lemma triple_getThis_any : triple p0 getThis (fun _ => True).
Proof. exact (triple_any _ _ triple_getThis). Qed.

(** Steps through a computation built from the primitives. *)
Ltac triple_prim :=
  repeat first
    [ apply triple_getQuills
    | apply triple_getThis_any
    | apply triple_modifyQuills
    | apply triple_setState
    | apply triple_throw
    | apply triple_ret; exact I
    | apply triple_modifyThis; intros ?; reflexivity
    | apply triple_emit; exact I
    | apply triple_when; intros _
    | eapply triple_bind with (Q := fun _ => True); [|intros ? _] ].

Lemma triple_getEditingArea : triple p0 getEditingArea (fun _ => True).
Proof.
  unfold getEditingArea.
  eapply triple_bind; [apply triple_getThis|intros c _].
  destruct (editingArea c) as [[[element|]]|]; cbn [domNode]; triple_prim.
  destruct (nodeType element =? 3); triple_prim.
Qed.

Lemma triple_instantiateEditor : triple p0 instantiateEditor (fun _ => True).
Proof.
  unfold instantiateEditor.
  eapply triple_bind; [apply triple_getThis|intros c _].
  destruct (editor c); [apply triple_throw|].
  eapply triple_bind; [apply triple_getEditingArea|intros element _].
  unfold getEditorConfig, createEditor. triple_prim.
Qed.

Lemma triple_destroyEditor : triple p0 destroyEditor (fun _ => True).
Proof.
  unfold destroyEditor, unhookEditor.
  eapply triple_bind; [apply triple_getThis|intros c _].
  destruct (editor c); triple_prim.
Qed.

Lemma triple_componentDidUpdate (prevProps : Props) (prevState : ReactQuillState) :
  triple p0 (componentDidUpdate prevProps prevState) (fun _ => True).
Proof.
  unfold componentDidUpdate.
  eapply triple_bind; [apply triple_getThis|intros c _].
  destruct (editor c) as [h|]; [|apply triple_ret; exact I].
  eapply triple_bind with (Q := fun _ => True); [|intros regenerate _].
  { unfold shouldComponentRegenerate. triple_prim. }
  eapply triple_bind with (Q := fun _ => True); [|intros _ _].
  { apply triple_when. intros _.
    unfold quillGetContents, quillGetSelection.
    do 5 (eapply triple_bind with (Q := fun _ => True);
          [triple_prim|intros ? _]).
    apply triple_destroyEditor. }
  eapply triple_bind; [apply triple_getThis|intros c1 _].
  eapply triple_bind with (Q := fun _ => True); [|intros _ _].
  { apply triple_when. intros _.
    destruct (regenerationSnapshot c1) as [snapshot|]; [|apply triple_throw].
    eapply triple_bind with (Q := fun _ => True); [triple_prim|intros _ _].
    eapply triple_bind; [apply triple_instantiateEditor|intros _ _].
    unfold quillSetContents, quillSetSelection, quillFocus. triple_prim. }
  eapply triple_bind; [apply triple_getThis|intros c2 Hc2].
  eapply triple_bind with (Q := fun _ => True); [|intros _ _].
  { apply triple_when. intros Hvalue. apply triple_when. intros _.
    unfold setEditorContents.
    eapply triple_bind with (Q := fun _ => True); [apply triple_modifyQuills|intros _ _].
    apply triple_emit. cbn. rewrite <- Hc2. auto. }
  unfold setEditorReadOnly. triple_prim.
Qed.

End PushedValues.

Section ValuePush.

Variables (prevProps : Props) (prevState : ReactQuillState) (w : World).

Let nextContents : JsVal := coalesce (propOf (props (this w)) "value") (VStr "").

Lemma nullish_coalesce (v : JsVal) : nullish (coalesce v (VStr "")) = false.
Proof. unfold coalesce. destruct v; reflexivity. Qed.

(** Every [setEditorContents] of a post-commit pass carries the [value]
    prop, which is then present. *)
Lemma componentDidUpdate_pushed (h : handle) (v : JsVal) :
  In (SetEditorContents h v) (emitted (componentDidUpdate prevProps prevState w)) ->
  isControlled (this w) = true /\ v = nextContents.
Proof.
  intros Hin.
  destruct (triple_componentDidUpdate (props (this w)) prevProps prevState w eq_refl)
    as (_ & Hall & _).
  rewrite Forall_forall in Hall.
  apply list_elem_of_In in Hin. exact (Hall _ Hin).
Qed.

Lemma lookup_alter_contents (f : Quill -> Quill) (h : nat) (qs : list Quill) :
  (forall q, q_contents (f q) = q_contents q) ->
  q_contents <$> alter f h qs !! h = q_contents <$> qs !! h.
Proof.
  intros Hf. rewrite list_lookup_alter_eq.
  destruct (qs !! h) as [q|]; cbn; [f_equal; apply Hf|reflexivity].
Qed.

(** With a live instance and the generation of the previous commit, a
    controlled component pushes exactly when the incoming value differs
    from the previous state's. *)
Lemma componentDidUpdate_push_iff (h : handle) :
  editor (this w) = Some h ->
  generation (state (this w)) = generation prevState ->
  isControlled (this w) = true ->
  result (componentDidUpdate prevProps prevState w) = Returned tt
  /\ (In (SetEditorContents h nextContents)
         (emitted (componentDidUpdate prevProps prevState w))
      <-> isEqualValue nextContents (value prevState) = false)
  /\ (isEqualValue nextContents (value prevState) = true ->
      (forall h' v,
          ~ In (SetEditorContents h' v)
               (emitted (componentDidUpdate prevProps prevState w)))
      /\ q_contents <$> quills (after (componentDidUpdate prevProps prevState w)) !! h
         = q_contents <$> quills w !! h)
  /\ (somePropDiffers dirtyProps prevProps (props (this w)) = false ->
      editor (this (after (componentDidUpdate prevProps prevState w))) = Some h).
Proof.
  intros He Hg Hc. unfold isControlled in Hc. subst nextContents.
  destruct (somePropDiffers dirtyProps prevProps (props (this w))) eqn:Hr.
  - rewrite (componentDidUpdate_regenerating prevProps prevState w h He Hg Hr).
    cbn [result emitted after this quills]. rewrite Hc. cbn [andb].
    split; [reflexivity|]. split; [|split; [|discriminate]].
    + destruct (isEqualValue _ _); cbn [negb app].
      * split; [|discriminate].
        intros [H|[H|H]]; try discriminate.
        destruct (_ && _); cbn in H; [destruct H as [H|[]]; discriminate|destruct H].
      * split; [reflexivity|]. intros _. right. right. left. reflexivity.
    + intros ->. cbn [negb id app]. split.
      * intros h' v. destruct (_ && _); cbn; intuition discriminate.
      * destruct (_ && _); cbn [id];
          rewrite ?lookup_alter_contents by reflexivity; reflexivity.
  - rewrite (componentDidUpdate_steady prevProps prevState w h He Hg Hr).
    cbn [result emitted after this quills]. rewrite Hc. cbn [andb].
    split; [reflexivity|]. split; [|split; [|intros _; exact He]].
    + destruct (isEqualValue _ _); cbn [negb app].
      * split; [|discriminate].
        destruct (_ && _); cbn; [intros [H|[]]; discriminate|intros []].
      * split; [reflexivity|]. intros _. left. reflexivity.
    + intros ->. cbn [negb id app]. split.
      * intros h' v. destruct (_ && _); cbn; intuition discriminate.
      * destruct (_ && _); cbn [id];
          rewrite ?lookup_alter_contents by reflexivity; reflexivity.
Qed.

End ValuePush.

(** C6: what the code does when an update brings a change of the
    tracked value together with new props.  The push is decided against
    [prevState.value], the value tracked before the update, and not
    against the value the component tracks when the pass runs, which is
    what the comment in the code names (override whenever [value]
    differs from current state).  After the user has typed, with the
    handler's request still pending: a parent that keeps [value] at the
    old document and changes the placeholder gets no push, although
    [value] differs from the tracked value; a parent that takes the new
    document over as [value] gets it pushed into the instance, although
    it equals the tracked value. *)
Theorem value_push_compares_with_previous_state :
  let kept := receiveProps placeholderProps changedWorld in
  let taken := receiveProps typedProps changedWorld in
  let incoming (w : World) := coalesce (propOf (props (this w)) "value") (VStr "") in
  let tracked (w : World) := value (state (this w)) in
  pendingState changedWorld = [PatchValue (VStr "<p>ab</p>")]
  /\ (result kept = Returned tt
      /\ isControlled (this (after kept)) = true
      /\ editor (this (after kept)) = Some 0%nat
      /\ incoming (after kept) = VStr "<p>a</p>"
      /\ tracked (after kept) = VStr "<p>ab</p>"
      /\ isEqualValue (incoming (after kept)) (tracked (after kept)) = false
      /\ List.filter isPush (emitted kept) = [])
  /\ (result taken = Returned tt
      /\ isControlled (this (after taken)) = true
      /\ editor (this (after taken)) = Some 0%nat
      /\ incoming (after taken) = VStr "<p>ab</p>"
      /\ tracked (after taken) = VStr "<p>ab</p>"
      /\ isEqualValue (incoming (after taken)) (tracked (after taken)) = true
      /\ List.filter isPush (emitted taken)
         = [SetEditorContents 0 (VStr "<p>ab</p>")])
  /\ emitted (componentDidUpdate exampleProps (state (this mountedWorld))
                                 (withProps placeholderProps
                                            (appliedState changedWorld)))
     = []
  /\ emitted (componentDidUpdate exampleProps (state (this mountedWorld))
                                 (withProps typedProps (appliedState changedWorld)))
     = [SetEditorContents 0 (VStr "<p>ab</p>")].
Proof. cbv zeta. vm_compute. repeat split. Qed.

(** C10.  A component constructed with neither [value] nor
    [defaultValue] tracks [''], and the initial tracked value is never
    null or undefined.  Every document a post-commit pass hands to
    [setEditorContents] is the [value] prop with [''] in place of a
    nullish one, so it is never null or undefined; and with a live
    instance, the generation of the previous commit and a nullish
    [value] prop, it is [''] that is compared with the previous state's
    value to decide the push. *)
Theorem nullish_value_is_empty_string
        (p prevProps : Props) (prevState : ReactQuillState) (w : World) :
  let o := componentDidUpdate prevProps prevState w in
  (p !! "value" = None -> p !! "defaultValue" = None ->
   value (state (constructor p)) = VStr "")
  /\ nullish (value (state (constructor p))) = false
  /\ (forall h v,
         In (SetEditorContents h v) (emitted o) ->
         v = coalesce (propOf (props (this w)) "value") (VStr "")
         /\ nullish v = false)
  /\ (forall h,
         editor (this w) = Some h ->
         generation (state (this w)) = generation prevState ->
         isControlled (this w) = true ->
         nullish (propOf (props (this w)) "value") = true ->
         (In (SetEditorContents h (VStr "")) (emitted o)
          <-> isEqualValue (VStr "") (value prevState) = false)).
Proof.
  cbv zeta. split; [|split; [|split]].
  - intros Hv Hd. unfold constructor, isControlled, hasProp, propOf. cbn [props].
    rewrite Hv, Hd. reflexivity.
  - unfold constructor. cbn [state value]. apply nullish_coalesce.
  - intros h v Hin.
    destruct (componentDidUpdate_pushed prevProps prevState w h v Hin) as (_ & ->).
    split; [reflexivity|apply nullish_coalesce].
  - intros h He Hg Hc Hnull.
    destruct (componentDidUpdate_push_iff prevProps prevState w h He Hg Hc)
      as (_ & Hiff & _).
    unfold coalesce in Hiff. rewrite Hnull in Hiff. exact Hiff.
Qed.

Lemma nullish_value_is_empty_string_witness :
  In (SetEditorContents 0 (VStr ""))
     (emitted (componentDidUpdate exampleProps (state (this mountedWorld))
                                  (withProps nullValueProps mountedWorld))).
Proof.
  exact (proj2 (proj2 (proj2 (proj2 (nullish_value_is_empty_string
                  exampleProps exampleProps (state (this mountedWorld))
                  (withProps nullValueProps mountedWorld))))
                0%nat eq_refl eq_refl eq_refl eq_refl) eq_refl).
Defined.

(** ** Regeneration *)

(** C1: what the code does when the parent changes the theme of the
    mounted example.  The update is accepted; in its post-commit pass
    the snapshot is taken, the generation bump is requested and the
    instance is destroyed.  The pass in which the generation has
    changed then finds [this.editor] deleted and returns at its first
    line: no instance is created, nothing is restored, the snapshot is
    still held, and the component is left without an editor. *)
Theorem regeneration_is_not_completed :
  let o := receiveProps bubbleProps mountedWorld in
  result o = Returned tt
  /\ emitted o = [SetState (PatchGeneration 1); QuillUnhook 0]
  /\ generation (state (this mountedWorld)) = 0
  /\ generation (state (this (after o))) = 1
  /\ pendingState (after o) = []
  /\ editor (this (after o)) = None
  /\ regenerationSnapshot (this (after o))
     = Some (mkSnapshot (VStr "<p>a</p>") VNull)
  /\ length (quills (after o)) = 1%nat
  /\ List.filter isCreate (emitted o) = [].
Proof. cbv zeta. vm_compute. repeat split. Qed.

(** C8: what the code does in an update that changes a dirty prop.
    With a live instance and the generation of the previous commit, the
    post-commit pass requests the generation plus one, destroys the
    instance once and creates none; and any post-commit pass that finds
    no instance, as the next one does, returns at once, so the create
    that should follow the destroy never happens. *)
Theorem regeneration_destroys_without_creating
        (prevProps : Props) (prevState : ReactQuillState) (w : World) :
  let o := componentDidUpdate prevProps prevState w in
  (forall h,
      editor (this w) = Some h ->
      generation (state (this w)) = generation prevState ->
      somePropDiffers dirtyProps prevProps (props (this w)) = true ->
      result o = Returned tt
      /\ pendingState (after o)
         = pendingState w ++ [PatchGeneration (generation (state (this w)) + 1)]
      /\ editor (this (after o)) = None
      /\ List.filter isDestroy (emitted o) = [QuillUnhook h]
      /\ List.filter isCreate (emitted o) = [])
  /\ (editor (this w) = None -> o = mkOutcome w [] (Returned tt)).
Proof.
  cbv zeta. split.
  - intros h He Hg Hr.
    rewrite (componentDidUpdate_regenerating prevProps prevState w h He Hg Hr).
    cbn [result after emitted this pendingState editor set_editor].
    repeat split; destruct (_ && _); destruct (_ && _); reflexivity.
  - apply componentDidUpdate_without_editor.
Qed.

(** ** Further properties of the update cycle *)

(** X1.  An update that changes no dirty prop, on a live instance and
    with the generation of the previous commit, keeps the instance: it
    is still [this.editor] afterwards, nothing is destroyed or created
    and no generation is requested; the value is pushed, once and on
    that instance, exactly when the component is controlled and the
    incoming value differs from the previous state's.  When nothing is
    pushed, the pass returns, writes no field of the component and
    requests no state. *)
Theorem steady_update_keeps_instance
        (prevProps : Props) (prevState : ReactQuillState) (w : World) (h : handle) :
  editor (this w) = Some h ->
  generation (state (this w)) = generation prevState ->
  somePropDiffers dirtyProps prevProps (props (this w)) = false ->
  let o := componentDidUpdate prevProps prevState w in
  let pushes :=
    hasProp (props (this w)) "value"
    && negb (isEqualValue (coalesce (propOf (props (this w)) "value") (VStr ""))
                          (value prevState)) in
  editor (this (after o)) = Some h
  /\ List.filter isDestroy (emitted o) = []
  /\ List.filter isCreate (emitted o) = []
  /\ List.filter isBumpRequest (emitted o) = []
  /\ List.filter isPush (emitted o)
     = (if pushes
        then [SetEditorContents h (coalesce (propOf (props (this w)) "value")
                                            (VStr ""))]
        else [])
  /\ (pushes = false ->
      result o = Returned tt
      /\ this (after o) = this w
      /\ pendingState (after o) = pendingState w).
Proof.
  intros He Hg Hr. cbv zeta.
  rewrite (componentDidUpdate_steady prevProps prevState w h He Hg Hr).
  cbn [result after emitted this pendingState].
  split; [exact He|].
  destruct (hasProp (props (this w)) "value" && _);
    destruct (hasProp (props (this w)) "readOnly" && _);
    repeat split; reflexivity || discriminate.
Qed.

Lemma steady_update_keeps_instance_witness :
  let w := withProps placeholderProps mountedWorld in
  let o := componentDidUpdate exampleProps (state (this mountedWorld)) w in
  editor (this (after o)) = Some 0%nat
  /\ result o = Returned tt
  /\ this (after o) = this w
  /\ pendingState (after o) = pendingState w.
Proof.
  cbv zeta.
  pose proof (steady_update_keeps_instance exampleProps (state (this mountedWorld))
                (withProps placeholderProps mountedWorld) 0%nat
                eq_refl eq_refl eq_refl) as H.
  cbv zeta in H. destruct H as (He & _ & _ & _ & _ & Hquiet).
  split; [exact He|exact (Hquiet eq_refl)].
Defined.

(** The mounted example re-rendered with another [value] and nothing
    else changed: [shouldComponentUpdate] answers [false], so no
    post-commit pass runs and the new document is not pushed into the
    instance. *)
Example value_only_change_is_not_an_update :
  shouldComponentUpdate valueOnlyProps (state (this mountedWorld)) mountedWorld
  = mkOutcome mountedWorld [] (Returned false)
  /\ emitted (receiveProps valueOnlyProps mountedWorld) = []
  /\ quills (after (receiveProps valueOnlyProps mountedWorld)) = quills mountedWorld.
Proof. vm_compute. repeat split. Qed.

(** ** Laws of the value comparison *)

Section EqualityLaws.

Lemma isEqual_arr (r r' : ref) (xs ys : list JsVal) :
  isEqual (VArr r xs) (VArr r' ys) = all2 (fun x y => isEqual x y) xs ys.
Proof. reflexivity. Qed.

Lemma every_field_forall (p : string -> JsVal -> bool) (fs : list (string * JsVal)) :
  every_field p fs = true <-> forall kv, In kv fs -> p (fst kv) (snd kv) = true.
Proof.
  induction fs as [|kv fs IH]; simpl.
  - split; [intros _ kv []|reflexivity].
  - rewrite andb_true_iff, IH. split.
    + intros [Hp Hrest] kv' [<-|Hin]; auto.
    + intros H. split; [apply H; left; reflexivity|].
      intros kv' Hin. apply H. right. exact Hin.
Qed.

Lemma every_field_ext (p q : string -> JsVal -> bool) (fs : list (string * JsVal)) :
  (forall kv, In kv fs -> p (fst kv) (snd kv) = q (fst kv) (snd kv)) ->
  every_field p fs = every_field q fs.
Proof.
  induction fs as [|kv fs IH]; simpl; [reflexivity|].
  intros H. rewrite (H kv) by (left; reflexivity).
  rewrite IH; [reflexivity|]. intros kv' Hin. apply H. right. exact Hin.
Qed.

Lemma field_sat_ext (p q : JsVal -> bool) (k : string) (fs : list (string * JsVal)) :
  (forall kv, In kv fs -> p (snd kv) = q (snd kv)) ->
  field_sat p k fs = field_sat q k fs.
Proof.
  induction fs as [|kv fs IH]; simpl; [reflexivity|].
  intros H. rewrite (H kv) by (left; reflexivity).
  rewrite IH; [reflexivity|]. intros kv' Hin. apply H. right. exact Hin.
Qed.

Lemma assoc_distinct (fs : list (string * JsVal)) (kv : string * JsVal) :
  distinctKeys (map fst fs) = true -> In kv fs -> assoc (fst kv) fs = Some (snd kv).
Proof.
  induction fs as [|kv0 fs IH]; simpl; [intros _ []|].
  intros Hd [->|Hin].
  - rewrite String.eqb_refl. reflexivity.
  - apply andb_prop in Hd as [Hnot Hd].
    destruct (String.eqb (fst kv0) (fst kv)) eqn:E; [|apply IH; assumption].
    exfalso. apply negb_true_iff in Hnot.
    assert (existsb (String.eqb (fst kv0)) (map fst fs) = true) as Hex; [|congruence].
    apply existsb_exists. exists (fst kv). split; [|exact E].
    apply in_map. exact Hin.
Qed.

(** A well-formed value is deeply equal to itself. *)
Lemma isEqual_refl (v : JsVal) : wellFormed v = true -> isEqual v v = true.
Proof.
  induction v using JsVal_deep_ind; try reflexivity.
  - intros _. apply Bool.eqb_reflx.
  - intros _. apply Z.eqb_refl.
  - intros _. apply String.eqb_refl.
  - rewrite isEqual_arr. cbn [wellFormed].
    induction H as [|x xs Hx _ IH]; cbn; [reflexivity|].
    intros Hw. apply andb_prop in Hw as [Hwx Hws].
    rewrite (Hx Hwx), (IH Hws). reflexivity.
  - rewrite isEqual_obj. cbn [wellFormed]. intros Hw.
    apply andb_prop in Hw as [Hd Hw].
    rewrite forallb_forall in Hw. rewrite List.Forall_forall in H.
    apply andb_true_iff. split; apply every_field_forall; intros kv Hin;
      rewrite field_sat_assoc, (assoc_distinct _ _ Hd Hin);
      apply (H kv Hin), (Hw kv Hin).
  - intros _. apply Nat.eqb_refl.
  - intros _. apply Nat.eqb_refl.
Qed.

Lemma all2_sym (xs ys : list JsVal) :
  Forall (fun x => forall y, isEqual x y = isEqual y x) xs ->
  all2 (fun x y => isEqual x y) xs ys = all2 (fun x y => isEqual x y) ys xs.
Proof.
  intros H. revert ys.
  induction H as [|x xs Hx _ IH]; intros [|y ys]; cbn; try reflexivity.
  rewrite Hx, IH. reflexivity.
Qed.

(** Deep equality does not depend on the order of its arguments. *)
Lemma isEqual_sym (a b : JsVal) : isEqual a b = isEqual b a.
Proof.
  revert b. induction a using JsVal_deep_ind; intros b0; destruct b0; try reflexivity.
  - cbn. destruct b, b0; reflexivity.
  - cbn. apply Z.eqb_sym.
  - cbn. apply String.eqb_sym.
  - rewrite !isEqual_arr. apply all2_sym. exact H.
  - rewrite !isEqual_obj. rewrite List.Forall_forall in H.
    rewrite andb_comm. f_equal.
    + apply every_field_ext. intros kv _. apply field_sat_ext.
      intros kv' Hin. apply (H kv' Hin).
    + apply every_field_ext. intros kv Hin. apply field_sat_ext.
      intros kv' _. apply (H kv Hin).
  - cbn. apply Nat.eqb_sym.
  - cbn. apply Nat.eqb_sym.
Qed.

End EqualityLaws.

Section ValueLaws.

Lemma wellFormed_getProp (v : JsVal) (k : string) :
  wellFormed v = true -> wellFormed (getProp v k) = true.
Proof.
  destruct v; try reflexivity. cbn [wellFormed getProp]. intros Hw.
  apply andb_prop in Hw as [_ Hw]. rewrite forallb_forall in Hw.
  induction fields as [|kv fs IH]; cbn; [reflexivity|].
  destruct (String.eqb (fst kv) k).
  - cbn. apply Hw. left. reflexivity.
  - apply IH. intros x Hx. apply Hw. right. exact Hx.
Qed.

Lemma isEqualValue_sym (a b : JsVal) : isEqualValue a b = isEqualValue b a.
Proof.
  unfold isEqualValue. rewrite (andb_comm (isDelta a)).
  destruct (isDelta b && isDelta a); apply isEqual_sym.
Qed.

Lemma isEqualValue_refl (a : JsVal) : wellFormed a = true -> isEqualValue a a = true.
Proof.
  intros Hw. unfold isEqualValue.
  destruct (isDelta a && isDelta a).
  - apply isEqual_refl, wellFormed_getProp, Hw.
  - apply isEqual_refl, Hw.
Qed.

End ValueLaws.

(** X3.  The comparison the component uses for its value does not
    depend on the order of its arguments, and every well-formed value
    (no object with a repeated key, at any depth) is equal to itself:
    the choice between comparing the [ops] and comparing the whole
    values is made on both arguments together. *)
Theorem isEqualValue_laws (a b : JsVal) :
  isEqualValue a b = isEqualValue b a
  /\ (wellFormed a = true -> isEqualValue a a = true).
Proof. split; [apply isEqualValue_sym|apply isEqualValue_refl]. Qed.

Section TextHandler.

Lemma onEditorChangeText_run
      (html delta source : JsVal) (view : UnprivilegedEditor) (w : World) :
  callable (propOf (props (this w)) "onChange") = true ->
  onEditorChangeText html delta source view w
  = let currentContents := value (state (this w)) in
    let nextContents :=
      if isDelta currentContents then ue_getContents view else ue_getHTML view in
    if isEqualValue nextContents currentContents
    then mkOutcome w [] (Returned tt)
    else mkOutcome
           (mkWorld (set_lastDeltaChangeSet (Some delta) (this w))
                    (pendingState w ++ [PatchValue nextContents]) (quills w))
           (SetState (PatchValue nextContents)
            :: callsOf "onChange" (propOf (props (this w)) "onChange")
                       [html; delta; source; VHost (ue_ref view)])
           (Returned tt).
Proof.
  intros Hf. cbv zeta.
  unfold onEditorChangeText, getEditorContents, bind, getThis, ret; simpl.
  destruct (isEqualValue _ _); simpl.
  - destruct w; reflexivity.
  - rewrite optCall_outcome by exact Hf. reflexivity.
Qed.

End TextHandler.

(** X4.  A text change settles.  With an [onChange] that is a function
    or missing and a view whose contents are a Delta and whose HTML is
    not, once React has applied the state the handler requested, the
    tracked value is of the same kind as before (a Delta stays a Delta,
    a string a string), and the same notification delivered again
    changes nothing, requests no state and calls nothing. *)
Theorem onEditorChangeText_settles
        (html delta source : JsVal) (view : UnprivilegedEditor) (w : World) :
  pendingState w = [] ->
  callable (propOf (props (this w)) "onChange") = true ->
  isDelta (ue_getContents view) = true ->
  isDelta (ue_getHTML view) = false ->
  wellFormed (ue_getContents view) = true ->
  wellFormed (ue_getHTML view) = true ->
  let w1 := appliedState (after (onEditorChangeText html delta source view w)) in
  isDelta (value (state (this w1))) = isDelta (value (state (this w)))
  /\ onEditorChangeText html delta source view w1 = mkOutcome w1 [] (Returned tt).
Proof.
  intros Hp Hf Hc Hh Hwc Hwh. cbv zeta.
  assert (isDelta (if isDelta (value (state (this w)))
                   then ue_getContents view else ue_getHTML view)
          = isDelta (value (state (this w)))
          /\ wellFormed (if isDelta (value (state (this w)))
                         then ue_getContents view else ue_getHTML view) = true)
    as (Hk & Hwf).
  { destruct (isDelta (value (state (this w)))); auto. }
  rewrite (onEditorChangeText_run html delta source view w Hf). cbv zeta.
  destruct (isEqualValue _ (value (state (this w)))) eqn:E; cbn [after].
  - unfold appliedState. rewrite Hp. cbn [foldl].
    split; [reflexivity|].
    rewrite onEditorChangeText_run by exact Hf. cbv zeta.
    simpl. rewrite E. reflexivity.
  - unfold appliedState. cbn [this pendingState quills]. rewrite Hp.
    cbn [app foldl applyPatch state set_props_state set_lastDeltaChangeSet value props].
    split; [exact Hk|].
    rewrite onEditorChangeText_run by exact Hf. cbv zeta.
    simpl. rewrite Hk, (isEqualValue_refl _ Hwf). reflexivity.
Qed.

Lemma onEditorChangeText_settles_witness :
  let w1 := appliedState (after (onEditorChangeText (VStr "<p>ab</p>") exampleDelta
                                   (VStr "user") exampleView mountedWorld)) in
  isDelta (value (state (this w1))) = isDelta (value (state (this mountedWorld)))
  /\ onEditorChangeText (VStr "<p>ab</p>") exampleDelta (VStr "user") exampleView w1
     = mkOutcome w1 [] (Returned tt).
Proof.
  exact (onEditorChangeText_settles (VStr "<p>ab</p>") exampleDelta (VStr "user")
           exampleView mountedWorld eq_refl eq_refl eq_refl eq_refl eq_refl eq_refl).
Defined.

Section SelectionHandler.

Lemma onEditorChangeSelection_run
      (nextSelection source : JsVal) (view : UnprivilegedEditor) (w : World) :
  callable (propOf (props (this w)) "onChangeSelection") = true ->
  callable (propOf (props (this w)) "onFocus") = true ->
  callable (propOf (props (this w)) "onBlur") = true ->
  onEditorChangeSelection nextSelection source view w
  = let currentSelection := selection (state (this w)) in
    if isEqual nextSelection currentSelection
    then mkOutcome w [] (Returned tt)
    else mkOutcome
           (mkWorld (this w) (pendingState w ++ [PatchSelection nextSelection])
                    (quills w))
           (SetState (PatchSelection nextSelection)
            :: callsOf "onChangeSelection"
                       (propOf (props (this w)) "onChangeSelection")
                       [nextSelection; source; VHost (ue_ref view)]
            ++ (if negb (truthy currentSelection) && truthy nextSelection
                then callsOf "onFocus" (propOf (props (this w)) "onFocus")
                             [nextSelection; source; VHost (ue_ref view)]
                else if truthy currentSelection && negb (truthy nextSelection)
                then callsOf "onBlur" (propOf (props (this w)) "onBlur")
                             [currentSelection; source; VHost (ue_ref view)]
                else []))
           (Returned tt).
Proof.
  intros Hsel Hfocus Hblur. cbv zeta.
  unfold onEditorChangeSelection, getEditorSelection, bind, getThis, ret; simpl.
  destruct (isEqual _ _); simpl.
  - destruct w; reflexivity.
  - rewrite (optCall_outcome "onChangeSelection") by exact Hsel. simpl.
    destruct (negb (truthy (selection (state (this w)))) && truthy nextSelection).
    + rewrite (optCall_outcome "onFocus") by exact Hfocus. reflexivity.
    + destruct (truthy (selection (state (this w))) && negb (truthy nextSelection)).
      * rewrite (optCall_outcome "onBlur") by exact Hblur. reflexivity.
      * simpl. rewrite app_nil_r. reflexivity.
Qed.

Lemma isEqual_truthy_differs (a b : JsVal) :
  truthy a <> truthy b -> isEqual a b = false.
Proof.
  intros H. destruct (isEqual a b) eqn:E; [|reflexivity].
  exfalso. apply H, isEqual_truthy, E.
Qed.

End SelectionHandler.

(** X5.  Focus then blur.  From a component with no selection, a
    notification with a range requests the selection and calls
    [onChangeSelection] and then [onFocus] with that range; once the
    state is applied the range is the tracked selection, and a
    notification with [null] calls [onChangeSelection] with [null] and
    then [onBlur] with the range that was lost. *)
Theorem selection_gain_then_loss
        (range source : JsVal) (view : UnprivilegedEditor) (w : World) :
  pendingState w = [] ->
  truthy (selection (state (this w))) = false ->
  truthy range = true ->
  callable (propOf (props (this w)) "onChangeSelection") = true ->
  callable (propOf (props (this w)) "onFocus") = true ->
  callable (propOf (props (this w)) "onBlur") = true ->
  let o1 := onEditorChangeSelection range source view w in
  let w1 := appliedState (after o1) in
  let o2 := onEditorChangeSelection VNull source view w1 in
  emitted o1
  = SetState (PatchSelection range)
    :: callsOf "onChangeSelection" (propOf (props (this w)) "onChangeSelection")
               [range; source; VHost (ue_ref view)]
    ++ callsOf "onFocus" (propOf (props (this w)) "onFocus")
               [range; source; VHost (ue_ref view)]
  /\ selection (state (this w1)) = range
  /\ emitted o2
     = SetState (PatchSelection VNull)
       :: callsOf "onChangeSelection" (propOf (props (this w)) "onChangeSelection")
                  [VNull; source; VHost (ue_ref view)]
       ++ callsOf "onBlur" (propOf (props (this w)) "onBlur")
                  [range; source; VHost (ue_ref view)].
Proof.
  intros Hp Hcur Hrange Hsel Hfocus Hblur. cbv zeta.
  rewrite (onEditorChangeSelection_run range source view w Hsel Hfocus Hblur).
  cbv zeta.
  rewrite (isEqual_truthy_differs range (selection (state (this w))))
    by (rewrite Hcur, Hrange; discriminate).
  rewrite Hcur, Hrange. cbn [negb andb emitted after].
  split; [reflexivity|].
  unfold appliedState. cbn [this pendingState quills]. rewrite Hp.
  cbn [app foldl applyPatch]. split; [reflexivity|].
  rewrite onEditorChangeSelection_run by assumption. cbv zeta. simpl.
  rewrite (isEqual_truthy_differs VNull range)
    by (rewrite Hrange; discriminate).
  rewrite Hrange. reflexivity.
Qed.

Lemma selection_gain_then_loss_witness :
  let o1 := onEditorChangeSelection exampleRange (VStr "user") exampleView
                                    mountedWorld in
  let w1 := appliedState (after o1) in
  let o2 := onEditorChangeSelection VNull (VStr "user") exampleView w1 in
  emitted o1
  = SetState (PatchSelection exampleRange)
    :: callsOf "onChangeSelection"
               (propOf (props (this mountedWorld)) "onChangeSelection")
               [exampleRange; VStr "user"; VHost (ue_ref exampleView)]
    ++ callsOf "onFocus" (propOf (props (this mountedWorld)) "onFocus")
               [exampleRange; VStr "user"; VHost (ue_ref exampleView)]
  /\ selection (state (this w1)) = exampleRange
  /\ emitted o2
     = SetState (PatchSelection VNull)
       :: callsOf "onChangeSelection"
                  (propOf (props (this mountedWorld)) "onChangeSelection")
                  [VNull; VStr "user"; VHost (ue_ref exampleView)]
       ++ callsOf "onBlur" (propOf (props (this mountedWorld)) "onBlur")
                  [exampleRange; VStr "user"; VHost (ue_ref exampleView)].
Proof.
  exact (selection_gain_then_loss exampleRange (VStr "user") exampleView mountedWorld
           eq_refl eq_refl eq_refl eq_refl eq_refl eq_refl).
Defined.

Section Decision.

Lemma shouldComponentUpdate_valid
      (nextProps : Props) (nextState : ReactQuillState) (w : World) :
  result (validateProps nextProps w) = Returned tt ->
  shouldComponentUpdate nextProps nextState w
  = mkOutcome w []
      (Returned (negb (generation (state (this w)) =? generation nextState)
                 || somePropDiffers (cleanProps ++ dirtyProps) nextProps
                                    (props (this w)))).
Proof.
  intros Hvalid. unfold shouldComponentUpdate, bind.
  rewrite validateProps_outcome, Hvalid. simpl.
  destruct (generation (state (this w)) =? generation nextState); reflexivity.
Qed.

Lemma somePropDiffers_app (ks ks' : list string) (p q : Props) :
  somePropDiffers (ks ++ ks') p q = somePropDiffers ks p q || somePropDiffers ks' p q.
Proof. unfold somePropDiffers. apply existsb_app. Qed.

Lemma somePropDiffers_sym (ks : list string) (p q : Props) :
  somePropDiffers ks p q = somePropDiffers ks q p.
Proof.
  unfold somePropDiffers. induction ks as [|k ks IH]; cbn; [reflexivity|].
  rewrite IH, (isEqual_sym (propOf p k)). reflexivity.
Qed.

Lemma somePropDiffers_insert (ks : list string) (k : string) (v : JsVal) (p q : Props) :
  ~ In k ks -> somePropDiffers ks (<[k := v]> p) q = somePropDiffers ks p q.
Proof.
  unfold somePropDiffers. induction ks as [|k0 ks IH]; cbn; [reflexivity|].
  intros Hnot. rewrite IH by tauto.
  unfold propOf at 1 3. rewrite lookup_insert_ne by (intros ->; tauto). reflexivity.
Qed.

Lemma somePropDiffers_same (ks : list string) (p : Props) :
  forallb (fun key => wellFormed (propOf p key)) ks = true ->
  somePropDiffers ks p p = false.
Proof.
  unfold somePropDiffers. induction ks as [|k ks IH]; cbn; [reflexivity|].
  intros H. apply andb_prop in H as [Hk Hks].
  rewrite (isEqual_refl _ Hk), (IH Hks). reflexivity.
Qed.

End Decision.

(** X6.  Whenever the props are valid and [shouldComponentRegenerate]
    answers true, [shouldComponentUpdate] answers true as well, whatever
    the next state is: a regeneration is never skipped by the update
    check. *)
Theorem regenerate_implies_update
        (nextProps : Props) (nextState : ReactQuillState) (w : World) :
  result (validateProps nextProps w) = Returned tt ->
  result (shouldComponentRegenerate nextProps w) = Returned true ->
  shouldComponentUpdate nextProps nextState w = mkOutcome w [] (Returned true).
Proof.
  intros Hvalid Hregen.
  rewrite (shouldComponentUpdate_valid _ _ _ Hvalid).
  unfold shouldComponentRegenerate, bind, getThis, ret in Hregen. cbn in Hregen.
  injection Hregen as Hregen.
  rewrite somePropDiffers_app, Hregen, !orb_true_r. reflexivity.
Qed.

Lemma regenerate_implies_update_witness :
  shouldComponentUpdate bubbleProps (state (this mountedWorld)) mountedWorld
  = mkOutcome mountedWorld [] (Returned true).
Proof.
  exact (regenerate_implies_update bubbleProps (state (this mountedWorld))
                                   mountedWorld eq_refl eq_refl).
Defined.

(** X2.  [value] is in neither prop list.  For any component with no
    pending state whose compared props are well-formed, re-rendering it
    with only [value] set to any [v] that passes validation makes
    [shouldComponentUpdate] answer false; the update installs the props
    and does nothing else: no post-commit pass, no call, no instance
    touched. *)
Theorem value_change_alone_is_no_update (v : JsVal) (w : World) :
  pendingState w = [] ->
  result (validateProps (<["value" := v]> (props (this w))) w) = Returned tt ->
  forallb (fun key => wellFormed (propOf (props (this w)) key))
          (cleanProps ++ dirtyProps) = true ->
  shouldComponentUpdate (<["value" := v]> (props (this w))) (state (this w)) w
  = mkOutcome w [] (Returned false)
  /\ receiveProps (<["value" := v]> (props (this w))) w
     = mkOutcome (withProps (<["value" := v]> (props (this w))) w) [] (Returned tt).
Proof.
  intros Hp Hvalid Hwf.
  assert (shouldComponentUpdate (<["value" := v]> (props (this w))) (state (this w)) w
          = mkOutcome w [] (Returned false)) as Hno.
  { rewrite (shouldComponentUpdate_valid _ _ _ Hvalid).
    rewrite Z.eqb_refl, somePropDiffers_insert, (somePropDiffers_same _ _ Hwf).
    - reflexivity.
    - cbn. intuition discriminate. }
  split; [exact Hno|].
  unfold receiveProps, updateComponent, takePending, bind, getThis.
  rewrite Hp. cbn [foldl pendingState this quills].
  assert (mkWorld (this w) [] (quills w) = w) as ->.
  { destruct w; cbn in *; subst; reflexivity. }
  rewrite Hno. unfold modifyThis, withProps. rewrite Hp. reflexivity.
Qed.

Lemma value_change_alone_is_no_update_witness :
  shouldComponentUpdate (<["value" := VStr "<p>b</p>"]> (props (this mountedWorld)))
                        (state (this mountedWorld)) mountedWorld
  = mkOutcome mountedWorld [] (Returned false)
  /\ receiveProps (<["value" := VStr "<p>b</p>"]> (props (this mountedWorld)))
                  mountedWorld
     = mkOutcome (withProps (<["value" := VStr "<p>b</p>"]> (props (this mountedWorld)))
                            mountedWorld) [] (Returned tt).
Proof.
  exact (value_change_alone_is_no_update (VStr "<p>b</p>") mountedWorld
                                         eq_refl eq_refl eq_refl).
Defined.

(** X7.  [readOnly] is applied in place.  In a post-commit pass on a
    live instance with the generation of the previous commit,
    [setEditorReadOnly] is called exactly when [readOnly] is among the
    props and is not strictly equal to its previous value, once, on the
    instance bound at the start of the pass and with the new value; the
    instance is then enabled iff the value is falsy.  When no dirty prop
    differs the instance stays and nothing is destroyed or created. *)
Theorem readOnly_is_applied_in_place
        (prevProps : Props) (prevState : ReactQuillState) (w : World) (h : handle) :
  editor (this w) = Some h ->
  generation (state (this w)) = generation prevState ->
  let readOnly := propOf (props (this w)) "readOnly" in
  let changed := hasProp (props (this w)) "readOnly"
                 && negb (strictEquals readOnly (propOf prevProps "readOnly")) in
  let o := componentDidUpdate prevProps prevState w in
  List.filter (fun ev => match ev with SetEditorReadOnly _ _ => true | _ => false end)
              (emitted o)
  = (if changed then [SetEditorReadOnly h readOnly] else [])
  /\ q_enabled <$> quills (after o) !! h
     = (if changed then (fun _ => negb (truthy readOnly)) <$> quills w !! h
        else q_enabled <$> quills w !! h)
  /\ (somePropDiffers dirtyProps prevProps (props (this w)) = false ->
      editor (this (after o)) = Some h
      /\ List.filter isDestroy (emitted o) = []
      /\ List.filter isCreate (emitted o) = []).
Proof.
  intros He Hg. cbv zeta.
  assert (forall (f : Quill -> Quill) (i : nat) (qs : list Quill),
             (forall q, q_enabled (f q) = q_enabled q) ->
             q_enabled <$> alter f i qs !! i = q_enabled <$> qs !! i) as Hkeep.
  { intros f i qs Hf. rewrite list_lookup_alter_eq.
    destruct (qs !! i); cbn; [f_equal; apply Hf|reflexivity]. }
  assert (forall (b : bool) (i : nat) (qs : list Quill),
             q_enabled <$> alter (withEnabled b) i qs !! i
             = (fun _ => b) <$> qs !! i) as Hset.
  { intros b i qs. rewrite list_lookup_alter_eq. destruct (qs !! i); reflexivity. }
  assert (forall o : option Quill,
             (fun _ : Quill => negb (truthy (propOf (props (this w)) "readOnly")))
               <$> o
             = (fun _ : Quill => negb (truthy (propOf (props (this w)) "readOnly")))
                 <$> (withHooked false <$> o)) as Hh.
  { intros [q|]; reflexivity. }
  assert (forall (d : JsVal) (o : option Quill),
             (fun _ : Quill => negb (truthy (propOf (props (this w)) "readOnly")))
               <$> (withContents d <$> o)
             = (fun _ : Quill => negb (truthy (propOf (props (this w)) "readOnly")))
                 <$> o) as Hc.
  { intros d [q|]; reflexivity. }
  destruct (somePropDiffers dirtyProps prevProps (props (this w))) eqn:Hr.
  - rewrite (componentDidUpdate_regenerating prevProps prevState w h He Hg Hr).
    cbn [result emitted after this quills].
    split; [|split; [|discriminate]].
    + destruct (hasProp (props (this w)) "value" && _);
        destruct (hasProp (props (this w)) "readOnly" && _); reflexivity.
    + destruct (hasProp (props (this w)) "value" && _);
        destruct (hasProp (props (this w)) "readOnly" && _); cbn [id];
        rewrite ?Hset, ?Hkeep by reflexivity; try reflexivity.
      * rewrite !list_lookup_alter_eq, Hc, <- Hh. reflexivity.
      * rewrite !list_lookup_alter_eq, <- Hh. reflexivity.
  - rewrite (componentDidUpdate_steady prevProps prevState w h He Hg Hr).
    cbn [result emitted after this quills].
    split; [|split].
    + destruct (hasProp (props (this w)) "value" && _);
        destruct (hasProp (props (this w)) "readOnly" && _); reflexivity.
    + destruct (hasProp (props (this w)) "value" && _);
        destruct (hasProp (props (this w)) "readOnly" && _); cbn [id];
        rewrite ?Hset, ?Hkeep by reflexivity; try reflexivity.
      rewrite !list_lookup_alter_eq, Hc. reflexivity.
    + intros _. split; [exact He|].
      destruct (hasProp (props (this w)) "value" && _);
        destruct (hasProp (props (this w)) "readOnly" && _); split; reflexivity.
Qed.

Lemma readOnly_is_applied_in_place_witness :
  let o := componentDidUpdate exampleProps (state (this mountedWorld))
                              (withProps readOnlyProps mountedWorld) in
  emitted o = [SetEditorReadOnly 0 (VBool true)]
  /\ q_enabled <$> quills (after o) !! 0%nat = Some false.
Proof.
  pose proof (readOnly_is_applied_in_place exampleProps (state (this mountedWorld))
                (withProps readOnlyProps mountedWorld) 0%nat eq_refl eq_refl) as H.
  cbv zeta in H. destruct H as (_ & H & _).
  split; [reflexivity|exact H].
Defined.

Section ValidationResult.

(** The checks of [validateProps], in their order. *)
Lemma validateProps_explicit (p : Props) (w : World) :
  result (validateProps p w)
  = if hasProp p "toolbar" then Thrown ErrToolbarProp
    else if truthy (optProp (optFirst (optProp (propOf p "modules") "toolbar")) "type")
    then Thrown ErrCustomToolbar
    else if truthy (propOf p "formats")
            && (negb (isArray (propOf p "formats"))
                || someNotString (propOf p "formats"))
    then Thrown ErrCustomFormats
    else if hasProp p "styles" then Thrown ErrStylesProp
    else if hasProp p "pollInterval" then Thrown ErrPollIntervalProp
    else if (1 <? childrenCount (propOf p "children"))%nat
    then Thrown ErrMultipleChildren
    else match (if (0 <? childrenCount (propOf p "children"))%nat
                then match childrenOnly (propOf p "children") with
                     | Returned child =>
                         if strictEquals (optProp child "type") (VStr "textarea")
                         then Thrown ErrTextarea else Returned tt
                     | Thrown e => Thrown e
                     end
                else Returned tt) with
         | Thrown e => Thrown e
         | Returned _ =>
             if match lastDeltaChangeSet (this w) with
                | Some d => truthy d && strictEquals (propOf p "value") d
                | None => false
                end
             then Thrown ErrDeltaAsValue else Returned tt
         end.
Proof.
  unfold validateProps.
  rewrite !result_bind_check.
  repeat match goal with
         | |- context [if ?b then Thrown ?e else _] => destruct b; [reflexivity|]
         end.
  match goal with
  | |- result (bind ?X _ _) = _ => assert (readsOnly X) as HX
  end.
  { destruct (0 <? childrenCount (propOf p "children"))%nat;
      [|apply readsOnly_ret].
    destruct (childrenOnly (propOf p "children"));
      [apply readsOnly_check|apply readsOnly_throw]. }
  rewrite !(result_bind_readsOnly _ _ _ HX).
  destruct (0 <? childrenCount (propOf p "children"))%nat.
  - destruct (childrenOnly (propOf p "children")) as [child|e]; [|reflexivity].
    rewrite !check_outcome. cbn [result].
    destruct (strictEquals _ _); [reflexivity|].
    unfold bind, getThis. rewrite !check_outcome. reflexivity.
  - cbn [ret result]. unfold bind, getThis. rewrite !check_outcome. reflexivity.
Qed.

Lemma validateProps_token (p : Props) (w w' : World) :
  lastDeltaChangeSet (this w) = lastDeltaChangeSet (this w') ->
  result (validateProps p w) = result (validateProps p w').
Proof. intros H. rewrite !validateProps_explicit, H. reflexivity. Qed.

Lemma hasProp_insert (p : Props) (k : string) (v : JsVal) :
  hasProp (<[k := v]> p) k = true.
Proof. unfold hasProp. rewrite lookup_insert_eq. reflexivity. Qed.

Lemma hasProp_insert_ne (p : Props) (k k' : string) (v : JsVal) :
  k <> k' -> hasProp (<[k := v]> p) k' = hasProp p k'.
Proof. intros H. unfold hasProp. rewrite lookup_insert_ne by exact H. reflexivity. Qed.

Lemma formats_accepted (f : JsVal) :
  truthy f && (negb (isArray f) || someNotString f) = false
  <-> truthy f = false
      \/ exists r items, f = VArr r items /\ forallb isString items = true.
Proof.
  split.
  - destruct (truthy f) eqn:T; [|auto]. cbn [andb].
    destruct f; cbn; try discriminate.
    intros H. right. exists r, items. split; [reflexivity|]. clear T.
    induction items as [|x xs IH]; cbn in *; [reflexivity|].
    apply orb_false_elim in H as [Hx Hxs]. apply negb_false_iff in Hx.
    rewrite Hx, (IH Hxs). reflexivity.
  - intros [->|(r & items & -> & H)]; [reflexivity|].
    change (existsb (fun x => negb (isString x)) items = false).
    induction items as [|x xs IH]; cbn in *; [reflexivity|].
    apply andb_prop in H as [Hx Hxs]. rewrite Hx, (IH Hxs). reflexivity.
Qed.

Lemma children_accepted (c : JsVal) :
  ((1 <? childrenCount c)%nat = false
   /\ (if (0 <? childrenCount c)%nat
       then match childrenOnly c with
            | Returned child =>
                if strictEquals (optProp child "type") (VStr "textarea")
                then Thrown ErrTextarea else Returned tt
            | Thrown e => Thrown e
            end
       else Returned tt) = Returned tt)
  <-> childrenCount c = 0%nat
      \/ exists r fs, c = VObj r fs
                      /\ strictEquals (getProp c "type") (VStr "textarea") = false.
Proof.
  split.
  - intros [H1 H2].
    destruct (childrenCount c) as [|n] eqn:E; [auto|]. right.
    cbn [Nat.ltb Nat.leb] in H2.
    destruct c; cbn in H2; try discriminate.
    exists r, fields. split; [reflexivity|].
    unfold optProp in H2. cbn [nullish] in H2.
    destruct (strictEquals _ _); [discriminate|reflexivity].
  - intros [->|(r & fs & -> & H)]; [split; reflexivity|].
    split; [reflexivity|].
    change ((if strictEquals (getProp (VObj r fs) "type") (VStr "textarea")
             then Thrown ErrTextarea else Returned tt) = Returned tt).
    rewrite H. reflexivity.
Qed.

End ValidationResult.

(** X8.  [validateProps] reads only: it changes nothing and calls
    nothing.  It accepts the props exactly when there is no [toolbar]
    prop, the first toolbar module entry has no truthy [type],
    [formats] is falsy or an array of strings, there is no [styles] and
    no [pollInterval] prop, there is no child or a single element child
    that is not a [textarea], and [value] is not the Delta of the last
    change event. *)
Theorem validateProps_accepts_iff (p : Props) (w : World) :
  validateProps p w = mkOutcome w [] (result (validateProps p w))
  /\ (result (validateProps p w) = Returned tt
      <-> hasProp p "toolbar" = false
          /\ truthy (optProp (optFirst (optProp (propOf p "modules") "toolbar"))
                             "type") = false
          /\ (truthy (propOf p "formats") = false
              \/ exists r items, propOf p "formats" = VArr r items
                                 /\ forallb isString items = true)
          /\ hasProp p "styles" = false
          /\ hasProp p "pollInterval" = false
          /\ (childrenCount (propOf p "children") = 0%nat
              \/ exists r fs,
                  propOf p "children" = VObj r fs
                  /\ strictEquals (getProp (propOf p "children") "type")
                                  (VStr "textarea") = false)
          /\ (forall d, lastDeltaChangeSet (this w) = Some d ->
                        truthy d && strictEquals (propOf p "value") d = false)).
Proof.
  split; [apply validateProps_outcome|].
  rewrite validateProps_explicit, <- formats_accepted, <- children_accepted.
  destruct (hasProp p "toolbar"); [split; [discriminate|intros (H & _); discriminate]|].
  destruct (truthy (optProp _ "type"));
    [split; [discriminate|intros (_ & H & _); discriminate]|].
  destruct (truthy (propOf p "formats") && _);
    [split; [discriminate|intros (_ & _ & H & _); discriminate]|].
  destruct (hasProp p "styles");
    [split; [discriminate|intros (_ & _ & _ & H & _); discriminate]|].
  destruct (hasProp p "pollInterval");
    [split; [discriminate|intros (_ & _ & _ & _ & H & _); discriminate]|].
  destruct (1 <? childrenCount (propOf p "children"))%nat eqn:E1;
    [split; [discriminate|intros (_ & _ & _ & _ & _ & (H & _) & _); congruence]|].
  match goal with
  | |- context [match ?X with Thrown e => Thrown e | Returned _ => _ end] =>
      destruct X as [[]|e] eqn:EX
  end.
  - destruct (lastDeltaChangeSet (this w)) as [d|].
    + destruct (truthy d && strictEquals (propOf p "value") d) eqn:Ed.
      * split; [discriminate|].
        intros (_ & _ & _ & _ & _ & _ & H). specialize (H d eq_refl). congruence.
      * split; [|reflexivity]. intros _. repeat split; try reflexivity.
        intros d' [= <-]. exact Ed.
    + split; [|reflexivity]. intros _. repeat split; try reflexivity.
      intros d' [=].
  - split; [discriminate|].
    intros (_ & _ & _ & _ & _ & (_ & H) & _). congruence.
Qed.

(** X9.  The removed props are rejected whatever they hold and
    whatever else is passed: with a [toolbar] prop the error is the
    toolbar one, the first check; with a [styles] or [pollInterval]
    prop validation throws, leaving the component as it was. *)
Theorem deprecated_props_are_rejected (p : Props) (v : JsVal) (w : World) :
  validateProps (<["toolbar" := v]> p) w = mkOutcome w [] (Thrown ErrToolbarProp)
  /\ (exists e, validateProps (<["styles" := v]> p) w = mkOutcome w [] (Thrown e))
  /\ (exists e, validateProps (<["pollInterval" := v]> p) w = mkOutcome w [] (Thrown e)).
Proof.
  split; [|split].
  - rewrite validateProps_outcome, validateProps_explicit, hasProp_insert. reflexivity.
  - rewrite validateProps_outcome, validateProps_explicit.
    rewrite (hasProp_insert _ "styles").
    repeat match goal with
           | |- context [if ?b then Thrown ?e else _] =>
               lazymatch b with
               | true => fail
               | _ => destruct b; [eexists; reflexivity|]
               end
           end.
    eexists; reflexivity.
  - rewrite validateProps_outcome, validateProps_explicit.
    rewrite (hasProp_insert _ "pollInterval").
    repeat match goal with
           | |- context [if ?b then Thrown ?e else _] =>
               lazymatch b with
               | true => fail
               | _ => destruct b; [eexists; reflexivity|]
               end
           end.
    eexists; reflexivity.
Qed.

Section Mounting.

Lemma alter_last (f : Quill -> Quill) (qs : list Quill) (q : Quill) :
  alter f (length qs) (qs ++ [q]) = qs ++ [f q].
Proof.
  induction qs as [|q0 qs IH]; cbn; [reflexivity|]. f_equal. exact IH.
Qed.

Lemma componentDidMount_fresh (w : World) (element : DomNode) :
  editor (this w) = None ->
  result (getEditingArea w) = Returned element ->
  exists config,
    result (getEditorConfig w) = Returned config
    /\ componentDidMount w
       = mkOutcome
           (mkWorld (set_editor (Some (length (quills w))) (this w))
                    (pendingState w)
                    (quills w ++ [mkQuill element config (value (state (this w)))
                                          VNull false
                                          (negb (truthy (o_readOnly config))) true]))
           [QuillCreate (length (quills w)) element config;
            SetEditorContents (length (quills w)) (value (state (this w)))]
           (Returned tt).
Proof.
  intros He Harea.
  pose proof (instantiateEditor_fresh w He) as Hfresh. rewrite Harea in Hfresh.
  destruct Hfresh as (config & Hconfig & Hrun).
  exists config. split; [exact Hconfig|].
  unfold componentDidMount. unfold bind at 1. rewrite Hrun.
  unfold setEditorContents, bind, getThis, modifyQuills, emit. simpl.
  rewrite alter_last. reflexivity.
Qed.

End Mounting.

(** X10.  Mount then unmount.  For a component with no instance whose
    editing area resolves to an element and whose [onChange] is a
    function or missing (the write of the document notifies the change
    handler, which calls it), [componentDidMount] returns, creates one
    instance on that element with the configuration of the props,
    hooks it, stores it in [this.editor] and writes the tracked value
    into it, once; [componentWillUnmount] then unhooks that instance,
    the only one created, and deletes the field; a second unmount
    throws. *)
Theorem mount_then_unmount (w : World) (element : DomNode) :
  editor (this w) = None ->
  result (getEditingArea w) = Returned element ->
  callable (propOf (props (this w)) "onChange") = true ->
  let h := length (quills w) in
  let mounted := componentDidMount w in
  let o := (componentDidMount ;;; componentWillUnmount) w in
  exists config,
    result (getEditorConfig w) = Returned config
    /\ result mounted = Returned tt
    /\ editor (this (after mounted)) = Some h
    /\ q_hooked <$> quills (after mounted) !! h = Some true
    /\ List.filter isCreate (emitted mounted) = [QuillCreate h element config]
    /\ List.filter isPush (emitted mounted)
       = [SetEditorContents h (value (state (this w)))]
    /\ List.filter isDestroy (emitted mounted) = []
    /\ result o = Returned tt
    /\ List.filter isCreate (emitted o) = [QuillCreate h element config]
    /\ List.filter isDestroy (emitted o) = [QuillUnhook h]
    /\ editor (this (after o)) = None
    /\ q_hooked <$> quills (after o) !! h = Some false
    /\ result (componentWillUnmount (after o))
       = Thrown ErrDestroyBeforeInstantiation.
Proof.
  intros He Harea _. cbv zeta.
  destruct (componentDidMount_fresh w element He Harea) as (config & Hconfig & Hrun).
  exists config. split; [exact Hconfig|].
  unfold bind. rewrite Hrun. cbn [after emitted result].
  unfold componentWillUnmount.
  erewrite destroyEditor_existing by reflexivity.
  cbn [after emitted result this pendingState quills].
  rewrite alter_last.
  assert (forall (qs : list Quill) (q : Quill), (qs ++ [q]) !! length qs = Some q)
    as Hlast.
  { intros qs q. induction qs; [reflexivity|exact IHqs]. }
  rewrite !Hlast.
  repeat split.
Qed.

Lemma mount_then_unmount_witness :
  result ((componentDidMount ;;; componentWillUnmount) renderedWorld) = Returned tt
  /\ editor (this (after (componentDidMount renderedWorld))) = Some 0%nat.
Proof.
  destruct (mount_then_unmount renderedWorld (mkNode 1 0) eq_refl eq_refl eq_refl)
    as (config & _ & _ & Hed & _ & _ & _ & _ & Hres & _).
  split; [exact Hres|exact Hed].
Defined.

(** X11.  An update that changes a dirty prop, run to quiescence.  For
    any component with a live instance and no pending state, valid next
    props differing in a dirty prop are installed, the generation grows
    by one, the instance is unhooked once and the snapshot of its
    contents and selection is taken; no instance is created in any of
    the passes, and the component ends with no editor and the snapshot
    still held. *)
Theorem dirty_update_leaves_no_editor (nextProps : Props) (w : World) (h : handle) :
  editor (this w) = Some h ->
  pendingState w = [] ->
  result (validateProps nextProps w) = Returned tt ->
  somePropDiffers dirtyProps nextProps (props (this w)) = true ->
  let o := receiveProps nextProps w in
  result o = Returned tt
  /\ props (this (after o)) = nextProps
  /\ generation (state (this (after o))) = generation (state (this w)) + 1
  /\ pendingState (after o) = []
  /\ editor (this (after o)) = None
  /\ regenerationSnapshot (this (after o))
     = Some (mkSnapshot (default VUndef (q_contents <$> quills w !! h))
                        (default VNull (q_selection <$> quills w !! h)))
  /\ List.filter isDestroy (emitted o) = [QuillUnhook h]
  /\ List.filter isCreate (emitted o) = [].
Proof.
  intros He Hp Hvalid Hdirty. cbv zeta.
  assert (mkWorld (this w) [] (quills w) = w) as Hw.
  { destruct w; cbn in *; subst; reflexivity. }
  assert (exists pushed, receiveProps nextProps w
          = mkOutcome
              (mkWorld
                 (set_editingArea
                    (Some (mkInstance
                             (Some (mkNode 1 (generation (state (this w)) + 1)))))
                    (set_props_state nextProps
                       (mkState (generation (state (this w)) + 1)
                                (value (state (this w)))
                                (selection (state (this w))))
                       (set_editor None
                          (set_regenerationSnapshot
                             (Some (mkSnapshot
                                      (default VUndef (q_contents <$> quills w !! h))
                                      (default VNull (q_selection <$> quills w !! h))))
                             (set_editingArea
                                (Some (mkInstance
                                         (Some (mkNode 1 (generation (state (this w)))))))
                                (set_props_state nextProps (state (this w)) (this w)))))))
                 [] (fst pushed))
              ([SetState (PatchGeneration (generation (state (this w)) + 1));
                QuillUnhook h] ++ snd pushed)
              (Returned tt)
          /\ List.filter isDestroy (snd pushed) = []
          /\ List.filter isCreate (snd pushed) = []) as (pushed & Hrun & Hd & Hc).
  { unfold receiveProps. unfold bind at 1.
    unfold updateComponent at 1, takePending, bind, getThis.
    rewrite Hp. cbn [foldl pendingState this quills after emitted result app].
    rewrite Hw, (shouldComponentUpdate_valid _ _ _ Hvalid).
    rewrite Z.eqb_refl, somePropDiffers_app, Hdirty, orb_true_r.
    cbn [negb orb]. unfold commitRender, modifyThis.
    cbn [after emitted result this pendingState quills app].
    match goal with
    | |- context [componentDidUpdate ?pp ?ps ?w1] =>
        rewrite (componentDidUpdate_regenerating pp ps w1 h)
    end; [|cbn; exact He|reflexivity|cbn; rewrite somePropDiffers_sym; exact Hdirty].
    cbn [after emitted result this pendingState quills app props state
         set_props_state set_editingArea set_editor set_regenerationSnapshot
         generation].
    rewrite Hp. cbn [app flushState pendingState].
    unfold updateComponent, takePending, bind, getThis.
    cbn [foldl pendingState this quills after emitted result app props state
         applyPatch generation value selection set_editor set_regenerationSnapshot
         set_editingArea set_props_state].
    erewrite shouldComponentUpdate_valid
      by (erewrite validateProps_token; [exact Hvalid|reflexivity]).
    cbn [this state generation set_editor set_regenerationSnapshot
         set_editingArea set_props_state].
    replace (generation (state (this w)) =? generation (state (this w)) + 1)
      with false by (symmetry; apply Z.eqb_neq; lia).
    cbn [negb orb]. unfold commitRender, modifyThis.
    cbn [after emitted result this pendingState quills app].
    rewrite componentDidUpdate_without_editor by reflexivity.
    cbn [after emitted result this pendingState quills app ret props state generation
         set_props_state set_editingArea set_editor set_regenerationSnapshot
         editor regenerationSnapshot lastDeltaChangeSet editingArea value selection].
    eexists (_, _). cbn [fst snd]. split; [rewrite !app_nil_r; reflexivity|].
    split; destruct (hasProp nextProps "value" && _);
      destruct (hasProp nextProps "readOnly" && _); reflexivity. }
  rewrite Hrun. cbn [after emitted result this pendingState props state generation
                     set_props_state set_editingArea set_editor
                     set_regenerationSnapshot editor regenerationSnapshot].
  repeat split; simpl; rewrite ?Hd, ?Hc; reflexivity.
Qed.

Lemma dirty_update_leaves_no_editor_witness :
  editor (this (after (receiveProps bubbleProps mountedWorld))) = None.
Proof.
  exact (proj1 (proj2 (proj2 (proj2 (proj2
           (dirty_update_leaves_no_editor bubbleProps mountedWorld 0%nat
              eq_refl eq_refl eq_refl eq_refl)))))).
Defined.

Section Keeps.

Variable Inv : World -> Prop.

Lemma keeps_ret {A} (a : A) (Q : A -> Prop) : Q a -> keeps Inv (ret a) Q.
Proof. intros HQ w Hw. cbn. split; [exact Hw|]. intros a' [= <-]. exact HQ. Qed.

Lemma keeps_throw {A} (e : Error) (Q : A -> Prop) : keeps Inv (throw e) Q.
Proof. intros w Hw. cbn. split; [exact Hw|discriminate]. Qed.

Lemma keeps_bind {A B} (m : M A) (k : A -> M B) (Q : A -> Prop) (Q' : B -> Prop) :
  keeps Inv m Q -> (forall a, Q a -> keeps Inv (k a) Q') -> keeps Inv (bind m k) Q'.
Proof.
  intros Hm Hk w Hw. unfold bind.
  destruct (Hm w Hw) as (Hi & Hr).
  destruct (m w) as [w1 ev1 [a|e]]; cbn in *.
  - destruct (Hk a (Hr a eq_refl) w1 Hi) as (Hi' & Hr').
    destruct (k a w1) as [w2 ev2 r2]; cbn in *. split; assumption.
  - split; [exact Hi|discriminate].
Qed.

Lemma keeps_getThis (Q : ReactQuill -> Prop) :
  (forall w, Inv w -> Q (this w)) -> keeps Inv getThis Q.
Proof.
  intros HQ w Hw. cbn. split; [exact Hw|]. intros a [= <-]. apply HQ, Hw.
Qed.

Lemma keeps_getQuills : keeps Inv getQuills (fun _ => True).
Proof. intros w Hw. cbn. split; [exact Hw|auto]. Qed.

Lemma keeps_modifyThis (f : ReactQuill -> ReactQuill) :
  (forall w, Inv w -> Inv (mkWorld (f (this w)) (pendingState w) (quills w))) ->
  keeps Inv (modifyThis f) (fun _ => True).
Proof. intros Hf w Hw. cbn. split; [apply Hf, Hw|auto]. Qed.

Lemma keeps_modifyQuills (f : list Quill -> list Quill) :
  (forall w, Inv w -> Inv (mkWorld (this w) (pendingState w) (f (quills w)))) ->
  keeps Inv (modifyQuills f) (fun _ => True).
Proof. intros Hf w Hw. cbn. split; [apply Hf, Hw|auto]. Qed.

Lemma keeps_emit (ev : Event) : keeps Inv (emit ev) (fun _ => True).
Proof. intros w Hw. cbn. split; [exact Hw|auto]. Qed.

Lemma keeps_setState (p : StatePatch) :
  (forall w, Inv w -> Inv (mkWorld (this w) (pendingState w ++ [p]) (quills w))) ->
  keeps Inv (setState p) (fun _ => True).
Proof. intros Hp w Hw. cbn. split; [apply Hp, Hw|auto]. Qed.

Lemma keeps_when (b : bool) (m : M unit) :
  (b = true -> keeps Inv m (fun _ => True)) -> keeps Inv (when b m) (fun _ => True).
Proof.
  intros Hm. destruct b; [apply Hm; reflexivity|apply keeps_ret; exact I].
Qed.

Lemma keeps_any {A} (m : M A) (Q : A -> Prop) :
  keeps Inv m Q -> keeps Inv m (fun _ => True).
Proof. intros Hm w Hw. destruct (Hm w Hw) as (Hi & _). auto. Qed.

Lemma keeps_readsOnly {A} (m : M A) : readsOnly m -> keeps Inv m (fun _ => True).
Proof. intros Hm w Hw. rewrite (Hm w). cbn. auto. Qed.

Lemma keeps_optCall (name : string) (f : JsVal) (args : list JsVal) :
  keeps Inv (optCall name f args) (fun _ => True).
Proof.
  destruct f; first [apply keeps_emit|apply keeps_throw|apply keeps_ret; exact I].
Qed.

End Keeps.

Section Ownership.

Lemma keeps_getThis_any (Inv : World -> Prop) : keeps Inv getThis (fun _ => True).
Proof. apply keeps_getThis. auto. Qed.

Lemma owns_alter (f : Quill -> Quill) (h : nat) (w : World) :
  (forall q, q_hooked (f q) = q_hooked q) ->
  ownsItsEditor w ->
  ownsItsEditor (mkWorld (this w) (pendingState w) (alter f h (quills w))).
Proof.
  intros Hf [Hto Hfrom]. split; cbn [this quills].
  - intros h' He. destruct (Hto h' He) as (q & Hq & Hh).
    destruct (decide (h = h')) as [Heq|Hne].
    + subst h'. exists (f q). rewrite list_lookup_alter_eq, Hq, Hf. auto.
    + exists q. rewrite list_lookup_alter_ne by exact Hne. auto.
  - intros h' q Hq Hh.
    destruct (decide (h = h')) as [Heq|Hne].
    + subst h'. rewrite list_lookup_alter_eq in Hq.
      apply fmap_Some in Hq as (q0 & E & ->).
      rewrite Hf in Hh. exact (Hfrom h q0 E Hh).
    + rewrite list_lookup_alter_ne in Hq by exact Hne. exact (Hfrom h' q Hq Hh).
Qed.

Lemma owns_this (f : ReactQuill -> ReactQuill) (w : World) :
  (forall c, editor (f c) = editor c) ->
  ownsItsEditor w ->
  ownsItsEditor (mkWorld (f (this w)) (pendingState w) (quills w)).
Proof. intros Hf [Hto Hfrom]. split; cbn [this quills]; rewrite Hf; assumption. Qed.

Lemma owns_pending (l : list StatePatch) (w : World) :
  ownsItsEditor w -> ownsItsEditor (mkWorld (this w) l (quills w)).
Proof. intros H. exact H. Qed.

Lemma keeps_owns_instantiateEditor :
  keeps ownsItsEditor instantiateEditor (fun _ => True).
Proof.
  intros w Hw. split; [|auto].
  destruct (editor (this w)) as [h|] eqn:He.
  - rewrite (instantiateEditor_existing w h He). exact Hw.
  - pose proof (instantiateEditor_fresh w He) as Hfresh.
    destruct (result (getEditingArea w)) as [element|e].
    + destruct Hfresh as (config & _ & ->). cbn [after].
      destruct Hw as [Hto Hfrom]. split; cbn [this quills set_editor editor].
      * intros h [= <-].
        exists (mkQuill element config blankDelta VNull false
                        (negb (truthy (o_readOnly config))) true).
        split; [|reflexivity].
        rewrite lookup_app_r by reflexivity.
        replace (length (quills w) - length (quills w))%nat with 0%nat by lia.
        reflexivity.
      * intros h q Hq Hh.
        destruct (decide (h < length (quills w))%nat) as [Hlt|Hge].
        -- rewrite lookup_app_l in Hq by exact Hlt.
           pose proof (Hfrom h q Hq Hh). congruence.
        -- apply lookup_lt_Some in Hq. rewrite length_app in Hq. cbn in Hq.
           f_equal. lia.
    + rewrite Hfresh. exact Hw.
Qed.

Lemma keeps_owns_destroyEditor :
  keeps ownsItsEditor destroyEditor (fun _ => True).
Proof.
  intros w Hw. split; [|auto].
  destruct (editor (this w)) as [h|] eqn:He.
  - rewrite (destroyEditor_existing w h He). cbn [after].
    destruct Hw as [Hto Hfrom]. split; cbn [this quills set_editor editor].
    + discriminate.
    + intros h' q Hq Hh. exfalso.
      destruct (decide (h = h')) as [Heq|Hne].
      * subst h'. rewrite list_lookup_alter_eq in Hq.
        apply fmap_Some in Hq as (q0 & _ & ->). discriminate Hh.
      * rewrite list_lookup_alter_ne in Hq by exact Hne.
        pose proof (Hfrom h' q Hq Hh). congruence.
  - rewrite (destroyEditor_missing w He). exact Hw.
Qed.

(** Steps through a computation that keeps the ownership invariant. *)
Ltac owns_prim :=
  repeat first
    [ apply keeps_getQuills
    | apply keeps_getThis_any
    | apply keeps_emit
    | apply keeps_throw
    | apply keeps_ret; exact I
    | apply keeps_optCall
    | apply keeps_owns_instantiateEditor
    | apply keeps_owns_destroyEditor
    | apply keeps_modifyThis; intros ? ?; apply owns_this; [reflexivity|assumption]
    | apply keeps_modifyQuills; intros ? ?; apply owns_alter; [reflexivity|assumption]
    | apply keeps_setState; intros ? ?; apply owns_pending; assumption
    | apply keeps_when; intros _
    | eapply keeps_bind with (Q := fun _ => True); [|intros ? _] ].

Lemma keeps_owns_componentDidUpdate (prevProps : Props) (prevState : ReactQuillState) :
  keeps ownsItsEditor (componentDidUpdate prevProps prevState) (fun _ => True).
Proof.
  unfold componentDidUpdate.
  eapply keeps_bind with (Q := fun _ => True); [owns_prim|intros c _].
  destruct (editor c) as [h|]; [|owns_prim].
  unfold shouldComponentRegenerate, quillGetContents, quillGetSelection.
  eapply keeps_bind with (Q := fun _ => True); [owns_prim|intros ? _].
  eapply keeps_bind with (Q := fun _ => True); [owns_prim|intros _ _].
  eapply keeps_bind with (Q := fun _ => True); [owns_prim|intros c1 _].
  eapply keeps_bind with (Q := fun _ => True); [|intros _ _].
  { apply keeps_when. intros _.
    destruct (regenerationSnapshot c1); [|owns_prim].
    unfold quillSetContents, quillSetSelection, quillFocus. owns_prim. }
  unfold setEditorContents, setEditorReadOnly. owns_prim.
Qed.

Lemma keeps_owns_componentDidMount :
  keeps ownsItsEditor componentDidMount (fun _ => True).
Proof.
  unfold componentDidMount.
  eapply keeps_bind with (Q := fun _ => True); [owns_prim|intros _ _].
  eapply keeps_bind with (Q := fun _ => True); [owns_prim|intros c _].
  destruct (editor c); unfold setEditorContents; owns_prim.
Qed.

Lemma keeps_owns_handlers
      (html delta source selection : JsVal) (view : UnprivilegedEditor) :
  keeps ownsItsEditor (onEditorChangeText html delta source view) (fun _ => True)
  /\ keeps ownsItsEditor (onEditorChangeSelection selection source view)
           (fun _ => True)
  /\ keeps ownsItsEditor focus (fun _ => True)
  /\ keeps ownsItsEditor blur (fun _ => True).
Proof.
  split; [|split; [|split]].
  - unfold onEditorChangeText, getEditorContents. owns_prim.
  - unfold onEditorChangeSelection, getEditorSelection.
    eapply keeps_bind with (Q := fun _ => True); [owns_prim|intros cur _].
    destruct (isEqual selection cur); [owns_prim|].
    eapply keeps_bind with (Q := fun _ => True); [owns_prim|intros _ _].
    eapply keeps_bind with (Q := fun _ => True); [owns_prim|intros c _].
    eapply keeps_bind with (Q := fun _ => True); [owns_prim|intros _ _].
    destruct (_ && _); [owns_prim|]. destruct (_ && _); owns_prim.
  - unfold focus, quillFocus.
    eapply keeps_bind with (Q := fun _ => True); [owns_prim|intros c _].
    destruct (editor c); owns_prim.
  - unfold blur, setEditorSelection.
    eapply keeps_bind with (Q := fun _ => True); [owns_prim|intros c _].
    destruct (editor c); owns_prim.
Qed.

Lemma keeps_owns_updateComponent (nextProps : Props) :
  keeps ownsItsEditor (updateComponent nextProps) (fun _ => True).
Proof.
  unfold updateComponent.
  eapply keeps_bind with (Q := fun _ => True); [owns_prim|intros c _].
  eapply keeps_bind with (Q := fun _ => True); [|intros patches _].
  { intros w Hw. cbn. split; [exact Hw|auto]. }
  eapply keeps_bind with (Q := fun _ => True); [|intros update _].
  { unfold shouldComponentUpdate.
    eapply keeps_bind with (Q := fun _ => True);
      [apply keeps_readsOnly, validateProps_readsOnly|intros _ _].
    eapply keeps_bind with (Q := fun _ => True); [owns_prim|intros c' _].
    destruct (negb _); owns_prim. }
  eapply keeps_bind with (Q := fun _ => True); [owns_prim|intros _ _].
  destruct update; [|owns_prim].
  eapply keeps_bind with (Q := fun _ => True); [unfold commitRender; owns_prim|intros _ _].
  apply keeps_owns_componentDidUpdate.
Qed.

Lemma keeps_owns_flushState (fuel : nat) :
  keeps ownsItsEditor (flushState fuel) (fun _ => True).
Proof.
  induction fuel as [|fuel IH]; cbn [flushState]; [apply keeps_ret; exact I|].
  intros w Hw. destruct (pendingState w) eqn:Hp.
  - cbn. auto.
  - revert w Hw Hp.
    assert (keeps ownsItsEditor
              (fun w => (updateComponent (props (this w)) ;;; flushState fuel) w)
              (fun _ => True)) as Hk.
    { intros w Hw.
      exact (keeps_bind _ _ _ _ _ (keeps_owns_updateComponent (props (this w)))
                        (fun _ _ => IH) w Hw). }
    intros w Hw _. exact (Hk w Hw).
Qed.

End Ownership.

(** X12.  The component's subscriptions follow [this.editor].  If the
    hooked instances are exactly the one [this.editor] refers to, then
    they still are after each lifecycle method, each change handler,
    [focus], [blur] and a whole update, also when the method throws: an
    instance is hooked only as it becomes [this.editor] and unhooked as
    the field is deleted. *)
Theorem subscriptions_follow_the_handle
        (nextProps prevProps : Props) (prevState : ReactQuillState)
        (html delta source selection : JsVal) (view : UnprivilegedEditor)
        (w : World) :
  ownsItsEditor w ->
  ownsItsEditor (after (componentDidMount w))
  /\ ownsItsEditor (after (componentWillUnmount w))
  /\ ownsItsEditor (after (componentDidUpdate prevProps prevState w))
  /\ ownsItsEditor (after (receiveProps nextProps w))
  /\ ownsItsEditor (after (onEditorChangeText html delta source view w))
  /\ ownsItsEditor (after (onEditorChangeSelection selection source view w))
  /\ ownsItsEditor (after (focus w))
  /\ ownsItsEditor (after (blur w)).
Proof.
  intros Hw.
  destruct (keeps_owns_handlers html delta source selection view)
    as (Htext & Hsel & Hfocus & Hblur).
  pose proof (keeps_bind _ _ _ _ _ (keeps_owns_updateComponent nextProps)
                         (fun _ _ => keeps_owns_flushState 4)) as Hrecv.
  split; [apply (keeps_owns_componentDidMount w Hw)|].
  split; [apply (keeps_owns_destroyEditor w Hw)|].
  split; [apply (keeps_owns_componentDidUpdate prevProps prevState w Hw)|].
  split; [apply (Hrecv w Hw)|].
  split; [apply (Htext w Hw)|].
  split; [apply (Hsel w Hw)|].
  split; [apply (Hfocus w Hw)|apply (Hblur w Hw)].
Qed.

Lemma owns_mountedWorld : ownsItsEditor mountedWorld.
Proof.
  split.
  - intros h He. vm_compute in He. injection He as <-.
    eexists. split; vm_compute; reflexivity.
  - intros h q Hq Hh. destruct h as [|h]; [reflexivity|].
    vm_compute in Hq. destruct h; discriminate Hq.
Qed.

Lemma subscriptions_follow_the_handle_witness :
  ownsItsEditor (after (receiveProps bubbleProps mountedWorld))
  /\ ownsItsEditor (after (componentWillUnmount mountedWorld)).
Proof.
  pose proof (subscriptions_follow_the_handle bubbleProps exampleProps
                (state (this mountedWorld)) VNull VNull VNull VNull exampleView
                mountedWorld owns_mountedWorld) as H.
  split; apply H.
Defined.

Section HandlersFrame.

Lemma optCall_quiet (name : string) (f : JsVal) (args : list JsVal) (w : World) :
  after (optCall name f args w) = w
  /\ forallb leavesEditorsAlone (emitted (optCall name f args w)) = true
  /\ List.filter isBumpRequest (emitted (optCall name f args w)) = [].
Proof. destruct f; repeat split; reflexivity. Qed.

End HandlersFrame.

(** X13.  The change handlers never write to an editor.  Whatever the
    arguments and the callback props, [onEditorChangeText] and
    [onEditorChangeSelection] leave every instance, [this.editor], the
    props, the editing area and the snapshot as they are, and the
    selection handler the change token too; their only calls are
    [setState] and the parent's callbacks, and the state they request
    is never a generation. *)
Theorem change_handlers_leave_editors_alone
        (html delta source selection : JsVal) (view : UnprivilegedEditor)
        (w : World) :
  let o1 := onEditorChangeText html delta source view w in
  let o2 := onEditorChangeSelection selection source view w in
  (quills (after o1) = quills w
   /\ editor (this (after o1)) = editor (this w)
   /\ props (this (after o1)) = props (this w)
   /\ editingArea (this (after o1)) = editingArea (this w)
   /\ regenerationSnapshot (this (after o1)) = regenerationSnapshot (this w)
   /\ forallb leavesEditorsAlone (emitted o1) = true
   /\ List.filter isBumpRequest (emitted o1) = [])
  /\ (quills (after o2) = quills w
      /\ editor (this (after o2)) = editor (this w)
      /\ props (this (after o2)) = props (this w)
      /\ editingArea (this (after o2)) = editingArea (this w)
      /\ regenerationSnapshot (this (after o2)) = regenerationSnapshot (this w)
      /\ lastDeltaChangeSet (this (after o2)) = lastDeltaChangeSet (this w)
      /\ forallb leavesEditorsAlone (emitted o2) = true
      /\ List.filter isBumpRequest (emitted o2) = []).
Proof.
  cbv zeta. split.
  - unfold onEditorChangeText, getEditorContents, bind, getThis, ret, when,
      modifyThis, setState.
    cbn [after emitted result this pendingState quills app].
    destruct (negb (isEqualValue _ _)); cbn [after emitted result this quills];
      [|repeat split; reflexivity].
    match goal with
    | |- context [optCall ?n ?f ?a ?w1] =>
        destruct (optCall_quiet n f a w1) as (Ha & He & Hb);
        destruct (optCall n f a w1) as [w2 ev2 r2]; cbn in Ha, He, Hb; subst w2
    end.
    destruct r2; cbn; repeat split; assumption.
  - unfold onEditorChangeSelection, getEditorSelection, bind, getThis, ret, setState.
    cbn [after emitted result this pendingState quills app].
    destruct (isEqual selection _); cbn [after emitted result this quills];
      [repeat split; reflexivity|].
    match goal with
    | |- context [optCall ?n ?f ?a ?w1] =>
        destruct (optCall_quiet n f a w1) as (Ha & He & Hb);
        destruct (optCall n f a w1) as [w2 ev2 r2]; cbn in Ha, He, Hb; subst w2
    end.
    destruct r2; cbn [after emitted result this quills];
      [|cbn; repeat split; rewrite ?app_nil_r; assumption].
    destruct (negb _ && _).
    + match goal with
      | |- context [optCall ?n ?f ?a ?w1] =>
          destruct (optCall_quiet n f a w1) as (Ha' & He' & Hb');
          destruct (optCall n f a w1) as [w2 ev3 r3]; cbn in Ha', He', Hb'; subst w2
      end.
      cbn. repeat split.
      * rewrite forallb_app, He, He'. reflexivity.
      * rewrite List.filter_app, Hb, Hb'. reflexivity.
    + destruct (_ && negb _).
      * match goal with
        | |- context [optCall ?n ?f ?a ?w1] =>
            destruct (optCall_quiet n f a w1) as (Ha' & He' & Hb');
            destruct (optCall n f a w1) as [w2 ev3 r3]; cbn in Ha', He', Hb'; subst w2
        end.
        cbn. repeat split.
        -- rewrite forallb_app, He, He'. reflexivity.
        -- rewrite List.filter_app, Hb, Hb'. reflexivity.
      * cbn. repeat split; rewrite app_nil_r; assumption.
Qed.

(** ** Reachability of the restore block *)

Section Unreachable.

Lemma calm_bind {A B} (m : M A) (k : A -> M B) (w : World) :
  calm (m w) -> (forall a w', bumpsOnlyWithoutEditor w' -> calm (k a w')) ->
  calm (bind m k w).
Proof.
  unfold calm, bind. intros (Hi & He) Hk.
  destruct (m w) as [w1 ev1 [a|e]]; cbn [after emitted] in *; [|split; assumption].
  destruct (Hk a w1 Hi) as (Hi' & He').
  destruct (k a w1) as [w2 ev2 r2]; cbn [after emitted] in *.
  split; [exact Hi'|]. rewrite forallb_app, He, He'. reflexivity.
Qed.

Lemma foldl_generation (ps : list StatePatch) (s : ReactQuillState) :
  existsb isBump ps = false ->
  generation (foldl applyPatch s ps) = generation s.
Proof.
  revert s. induction ps as [|p ps IH]; intros s; cbn; [reflexivity|].
  intros H. apply orb_false_elim in H as [Hp Hps].
  rewrite (IH _ Hps). destruct p; [discriminate|reflexivity..].
Qed.

Lemma shouldComponentUpdate_readsOnly (p : Props) (s : ReactQuillState) :
  readsOnly (shouldComponentUpdate p s).
Proof.
  unfold shouldComponentUpdate.
  apply readsOnly_bind; [apply validateProps_readsOnly|intros _].
  apply readsOnly_bind; [apply readsOnly_getThis|intros c].
  destruct (negb _); apply readsOnly_ret.
Qed.

Lemma updateComponent_calm (nextProps : Props) (w : World) :
  bumpsOnlyWithoutEditor w -> calm (updateComponent nextProps w).
Proof.
  intros Hw. unfold calm.
  unfold updateComponent, takePending, bind, getThis.
  cbn [after emitted result this pendingState quills app].
  rewrite (shouldComponentUpdate_readsOnly nextProps _ (mkWorld (this w) [] (quills w))).
  destruct (result (shouldComponentUpdate nextProps _ _)) as [update|e];
    cbn [after emitted result this pendingState quills app];
    [|split; [right; reflexivity|reflexivity]].
  unfold modifyThis at 1.
  cbn [after emitted result this pendingState quills app].
  destruct update; [|split; [right; reflexivity|reflexivity]].
  unfold commitRender, modifyThis.
  cbn [after emitted result this pendingState quills app].
  match goal with
  | |- context [componentDidUpdate ?pp ?ps ?w1] =>
      set (w2 := w1); set (o := componentDidUpdate pp ps w2)
  end.
  assert (bumpsOnlyWithoutEditor (after o)
          /\ forallb neitherRestoresNorCreates (emitted o) = true) as (Hi & He).
  { subst o. destruct (editor (this w)) as [h|] eqn:Eh.
    - assert (generation (state (this w2)) = generation (state (this w))) as Hg.
      { destruct Hw as [Hw|Hw]; [congruence|]. apply foldl_generation, Hw. }
      destruct (somePropDiffers dirtyProps (props (this w)) (props (this w2))) eqn:Hr.
      + rewrite (componentDidUpdate_regenerating _ _ w2 h Eh Hg Hr).
        cbn [after emitted]. split; [left; reflexivity|].
        destruct (hasProp _ "value" && _); destruct (hasProp _ "readOnly" && _);
          reflexivity.
      + rewrite (componentDidUpdate_steady _ _ w2 h Eh Hg Hr).
        cbn [after emitted]. split; [right; reflexivity|].
        destruct (hasProp _ "value" && _); destruct (hasProp _ "readOnly" && _);
          reflexivity.
    - rewrite (componentDidUpdate_without_editor _ _ w2 Eh).
      split; [right; reflexivity|reflexivity]. }
  destruct o as [w3 ev3 r3]. cbn in Hi, He |- *. split; assumption.
Qed.

Lemma flushState_calm (fuel : nat) (w : World) :
  bumpsOnlyWithoutEditor w -> calm (flushState fuel w).
Proof.
  revert w. induction fuel as [|fuel IH]; intros w Hw; cbn [flushState].
  - split; [exact Hw|reflexivity].
  - destruct (pendingState w) eqn:Hp; [split; [exact Hw|reflexivity]|].
    apply calm_bind; [apply updateComponent_calm, Hw|intros _; exact IH].
Qed.

Lemma filter_none {A} (p q : A -> bool) (l : list A) :
  (forall x, q x = true -> p x = false) ->
  forallb q l = true -> List.filter p l = [].
Proof.
  intros Hpq. induction l as [|x l IH]; cbn; [reflexivity|].
  intros H. apply andb_prop in H as [Hx Hl].
  rewrite (Hpq x Hx). exact (IH Hl).
Qed.

Lemma calls_are_none_of_restore (ev : Event) :
  neitherRestoresNorCreates ev = true -> isRestore ev = false.
Proof. destruct ev; cbn; congruence. Qed.

Lemma calls_are_none_of_create (ev : Event) :
  neitherRestoresNorCreates ev = true -> isCreate ev = false.
Proof. destruct ev; cbn; congruence. Qed.

End Unreachable.

Section ReachableStates.

Lemma bump_this (f : ReactQuill -> ReactQuill) (w : World) :
  (forall c, editor (f c) = editor c) ->
  bumpsOnlyWithoutEditor w ->
  bumpsOnlyWithoutEditor (mkWorld (f (this w)) (pendingState w) (quills w)).
Proof. intros Hf Hw. unfold bumpsOnlyWithoutEditor. cbn. rewrite Hf. exact Hw. Qed.

Lemma bump_pending (p : StatePatch) (w : World) :
  isBump p = false ->
  bumpsOnlyWithoutEditor w ->
  bumpsOnlyWithoutEditor (mkWorld (this w) (pendingState w ++ [p]) (quills w)).
Proof.
  intros Hp [Hw|Hw]; [left; exact Hw|right]. cbn.
  rewrite existsb_app, Hw. cbn. rewrite Hp. reflexivity.
Qed.

Lemma keeps_bump_destroyEditor :
  keeps bumpsOnlyWithoutEditor destroyEditor (fun _ => True).
Proof.
  intros w Hw. split; [|auto].
  destruct (editor (this w)) as [h|] eqn:He.
  - rewrite (destroyEditor_existing w h He). left. reflexivity.
  - rewrite (destroyEditor_missing w He). exact Hw.
Qed.

(** Steps through a computation that requests no generation. *)
Ltac bump_prim :=
  repeat first
    [ apply keeps_getQuills
    | apply keeps_getThis_any
    | apply keeps_emit
    | apply keeps_throw
    | apply keeps_ret; exact I
    | apply keeps_optCall
    | apply keeps_modifyThis; intros ? ?; apply bump_this; [reflexivity|assumption]
    | apply keeps_modifyQuills; intros ? H; exact H
    | apply keeps_setState; intros ? ?; apply bump_pending; [reflexivity|assumption]
    | apply keeps_when; intros _
    | eapply keeps_bind with (Q := fun _ => True); [|intros ? _] ].

Lemma keeps_bump_handlers
      (html delta source selection : JsVal) (view : UnprivilegedEditor) :
  keeps bumpsOnlyWithoutEditor (onEditorChangeText html delta source view)
        (fun _ => True)
  /\ keeps bumpsOnlyWithoutEditor (onEditorChangeSelection selection source view)
           (fun _ => True)
  /\ keeps bumpsOnlyWithoutEditor focus (fun _ => True)
  /\ keeps bumpsOnlyWithoutEditor blur (fun _ => True).
Proof.
  split; [|split; [|split]].
  - unfold onEditorChangeText, getEditorContents. bump_prim.
  - unfold onEditorChangeSelection, getEditorSelection.
    eapply keeps_bind with (Q := fun _ => True); [bump_prim|intros cur _].
    destruct (isEqual selection cur); [bump_prim|].
    eapply keeps_bind with (Q := fun _ => True); [bump_prim|intros _ _].
    eapply keeps_bind with (Q := fun _ => True); [bump_prim|intros c _].
    eapply keeps_bind with (Q := fun _ => True); [bump_prim|intros _ _].
    destruct (_ && _); [bump_prim|]. destruct (_ && _); bump_prim.
  - unfold focus, quillFocus.
    eapply keeps_bind with (Q := fun _ => True); [bump_prim|intros c _].
    destruct (editor c); bump_prim.
  - unfold blur, setEditorSelection.
    eapply keeps_bind with (Q := fun _ => True); [bump_prim|intros c _].
    destruct (editor c); bump_prim.
Qed.

Lemma keeps_idle_instantiateEditor :
  keeps (fun w => pendingState w = []) instantiateEditor (fun _ => True).
Proof.
  intros w Hw. split; [|auto].
  destruct (editor (this w)) as [h|] eqn:He.
  - rewrite (instantiateEditor_existing w h He). exact Hw.
  - pose proof (instantiateEditor_fresh w He) as Hfresh.
    destruct (result (getEditingArea w)) as [element|e].
    + destruct Hfresh as (config & _ & ->). exact Hw.
    + rewrite Hfresh. exact Hw.
Qed.

Lemma mount_is_idle (p : Props) : pendingState (after (mount p)) = [].
Proof.
  unfold mount.
  assert (keeps (fun w => pendingState w = []) (commitRender ;;; componentDidMount)
                (fun _ => True)) as Hk.
  { unfold commitRender, componentDidMount.
    eapply keeps_bind with (Q := fun _ => True);
      [apply keeps_modifyThis; intros ? H; exact H|intros _ _].
    eapply keeps_bind with (Q := fun _ => True);
      [apply keeps_idle_instantiateEditor|intros _ _].
    eapply keeps_bind with (Q := fun _ => True);
      [apply keeps_getThis_any|intros c _].
    destruct (editor c); [|apply keeps_throw].
    unfold setEditorContents.
    eapply keeps_bind with (Q := fun _ => True);
      [apply keeps_modifyQuills; intros ? H; exact H|intros _ _].
    apply keeps_emit. }
  apply (Hk (mkWorld (constructor p) [] [])). reflexivity.
Qed.

End ReachableStates.

(** X14.  The restore block of [componentDidUpdate] is never reached.
    A generation request is pending only while [this.editor] is
    deleted: this holds once any component is mounted and is kept by
    every update, both change handlers, [focus], [blur] and
    [componentWillUnmount].  In every such state an update with any
    props, run until no state is pending, makes none of the restore
    calls [setContents], [setSelection], [focus] and creates no
    instance: the pass that sees the new generation always finds
    [this.editor] deleted. *)
Theorem updates_never_reach_the_restore_block
        (p nextProps : Props) (html delta source selection : JsVal)
        (view : UnprivilegedEditor) (w : World) :
  bumpsOnlyWithoutEditor (after (mount p))
  /\ (bumpsOnlyWithoutEditor w ->
      (let o := receiveProps nextProps w in
       List.filter isRestore (emitted o) = []
       /\ List.filter isCreate (emitted o) = []
       /\ bumpsOnlyWithoutEditor (after o))
      /\ bumpsOnlyWithoutEditor (after (onEditorChangeText html delta source view w))
      /\ bumpsOnlyWithoutEditor
           (after (onEditorChangeSelection selection source view w))
      /\ bumpsOnlyWithoutEditor (after (focus w))
      /\ bumpsOnlyWithoutEditor (after (blur w))
      /\ bumpsOnlyWithoutEditor (after (componentWillUnmount w))).
Proof.
  split; [right; rewrite mount_is_idle; reflexivity|].
  intros Hw. cbv zeta.
  assert (calm (receiveProps nextProps w)) as (Hi & He).
  { apply calm_bind; [apply updateComponent_calm, Hw|].
    intros _. apply flushState_calm. }
  destruct (keeps_bump_handlers html delta source selection view)
    as (Htext & Hsel & Hfocus & Hblur).
  split; [split; [|split; [|exact Hi]]|].
  - apply (filter_none _ _ _ calls_are_none_of_restore He).
  - apply (filter_none _ _ _ calls_are_none_of_create He).
  - split; [apply (Htext w Hw)|].
    split; [apply (Hsel w Hw)|].
    split; [apply (Hfocus w Hw)|].
    split; [apply (Hblur w Hw)|apply (keeps_bump_destroyEditor w Hw)].
Qed.
